(** * evaluate_texts.py: batch submission, streamed results, reconciliation

    A shallow embedding of the functions of [evaluate_texts.py] and the
    properties the specification states about them.

    Python values are modelled as the script has them:
    - a [str] is a sequence of Unicode code points ([list N]);
    - [None]-or-value results are [option]s;
    - a call that may raise returns a [result];
    - the values [json.loads] produces are the inductive [json].

    Three behaviours belong to the Python runtime and its libraries and not
    to the script: the Unicode decimal-digit table (behind [int] and the
    regular expression class [\d]), [json.loads], and the network.  The
    first two are section variables; the third is the argument of the
    functions that talk to the service. *)

From Stdlib Require Import Ascii String DecimalString.
From Stdlib Require Import List NArith ZArith Lia Bool SpecFloat.
From Stdlib Require Import Sorted Permutation.
From Equations Require Import Equations.
From Equations.Prop Require Import Logic.
Import ListNotations.

Set Implicit Arguments.
Set Default Goal Selector "!".
Set Warnings "-register-all".

(** ** Text *)

Definition codepoint := N.
Definition str := list codepoint.

(** An ASCII literal of the source as a [str]. *)
Definition lit (s : string) : str := map N_of_ascii (list_ascii_of_string s).

Definition LF : codepoint := 10%N.
Definition UNDERSCORE : codepoint := 95%N.

Fixpoint str_eqb (a b : str) : bool :=
  match a, b with
  | [], [] => true
  | x :: a', y :: b' => N.eqb x y && str_eqb a' b'
  | _, _ => false
  end.

(** [str.isspace] for one character: the code points Python treats as
    white space (and [str.strip] removes). *)
Definition is_space (c : codepoint) : bool :=
  ((9 <=? c) && (c <=? 13) || (28 <=? c) && (c <=? 32)
   || (c =? 133) || (c =? 160) || (c =? 5760)
   || (8192 <=? c) && (c <=? 8202)
   || (c =? 8232) || (c =? 8233) || (c =? 8239) || (c =? 8287)
   || (c =? 12288))%N.

Fixpoint lstrip (s : str) : str :=
  match s with
  | c :: s' => if is_space c then lstrip s' else s
  | [] => []
  end.

Definition rstrip (s : str) : str := rev (lstrip (rev s)).

(** [s.strip()] *)
Definition strip (s : str) : str := rstrip (lstrip s).

(** [s.startswith(p)] *)
Fixpoint startswith (s p : str) : bool :=
  match p, s with
  | [], _ => true
  | x :: p', y :: s' => N.eqb x y && startswith s' p'
  | _ :: _, [] => false
  end.

(** [s.endswith(p)] *)
Definition endswith (s p : str) : bool := startswith (rev s) (rev p).

(** [s.split('\n')]: always at least one piece. *)
Fixpoint split_lines (s : str) : list str :=
  match s with
  | [] => [[]]
  | c :: s' =>
      if N.eqb c LF then [] :: split_lines s'
      else match split_lines s' with
           | l :: ls => (c :: l) :: ls
           | [] => [[c]]
           end
  end.

(** [s.split('\n\n', 1)] when ['\n\n' in s]: the text before the first
    blank line and the text after it; [None] when there is no blank line. *)
Fixpoint split_blank (s : str) : option (str * str) :=
  match s with
  | [] => None
  | c :: s' =>
      if N.eqb c LF && match s' with d :: _ => N.eqb d LF | [] => false end
      then Some ([], tl s')
      else match split_blank s' with
           | Some (a, b) => Some (c :: a, b)
           | None => None
           end
  end.

(** [str(n)] for a non-negative integer. *)
Definition str_of_N (n : N) : str :=
  lit (NilEmpty.string_of_uint (N.to_uint n)).

(** [str(z)] for an integer. *)
Definition str_of_Z (z : Z) : str :=
  match z with
  | Zneg p => lit "-" ++ str_of_N (Npos p)
  | _ => str_of_N (Z.to_N z)
  end.

(** Comparison of two [str] by code points, as [<] on Python strings. *)
Fixpoint str_ltb (a b : str) : bool :=
  match a, b with
  | _, [] => false
  | [], _ :: _ => true
  | x :: a', y :: b' => (x <? y)%N || (N.eqb x y && str_ltb a' b')
  end.

(** ** Outcomes of calls that may raise *)

Inductive exn :=
| KeyError (key : str)
| AttributeError
| TypeError
| ValueError
| OverflowError.

Inductive result (A : Type) :=
| Ok (a : A)
| Raise (e : exn).
Arguments Ok {A} a.
Arguments Raise {A} e.

Definition bind {A B} (r : result A) (k : A -> result B) : result B :=
  match r with
  | Ok a => k a
  | Raise e => Raise e
  end.

Notation "x <- r ;; k" := (bind r (fun x => k))
  (at level 61, r at next level, right associativity).

(** ** Identifier and grade level *)

Section Identifiers.

(** [unicode_decimal c] is the decimal value of [c] when [c] is a Unicode
    decimal digit (what [\d] matches and what [int] reads), and [None]
    otherwise.  The table itself is the interpreter's. *)
Variable unicode_decimal : codepoint -> option N.

Definition is_digit (c : codepoint) : bool :=
  match unicode_decimal c with Some _ => true | None => false end.

(** *** [extract_id_from_filename]

    [re.search(r'_(\d+)_NOR\.txt$', filename)], as a backtracking matcher. *)

Definition NOR_txt : str := Eval cbv in lit "_NOR.txt".

(** The pattern after the group: [_NOR\.txt$].  Without [re.MULTILINE],
    [$] matches at the end of the text and just before a line feed that
    ends the text. *)
Definition match_tail (s : str) : bool :=
  str_eqb s NOR_txt || str_eqb s (NOR_txt ++ [LF]).

(** The group ends here: it must hold a digit and the tail must match. *)
Definition group_end (taken s : str) : option str :=
  match taken with
  | [] => None
  | _ :: _ => if match_tail s then Some (rev taken) else None
  end.

(** [\d+] and then the tail.  [taken] holds the digits consumed so far, last
    one first.  The quantifier is greedy: it takes a digit when there is
    one, and gives it back when the rest of the pattern then fails. *)
Fixpoint match_digits (taken : str) (s : str) : option str :=
  match s with
  | c :: s' =>
      if is_digit c then
        match match_digits (c :: taken) s' with
        | Some g => Some g
        | None => group_end taken s
        end
      else group_end taken s
  | [] => group_end taken s
  end.

(** The whole pattern at the start of [s]; the result is [group(1)]. *)
Definition match_here (s : str) : option str :=
  match s with
  | c :: s' => if N.eqb c UNDERSCORE then match_digits [] s' else None
  | [] => None
  end.

(** [re.search]: the first position, from the left, where the pattern
    matches. *)
Fixpoint re_search (s : str) : option str :=
  match match_here s with
  | Some g => Some g
  | None =>
      match s with
      | _ :: s' => re_search s'
      | [] => None
      end
  end.

Definition extract_id_from_filename (filename : str) : option str :=
  re_search filename.

(** *** [extract_curso_from_id] *)

Definition default_curso : str := Eval cbv in lit "4t ESO".

(** The dictionary [curso_ordinals]. *)
Definition curso_ordinals (curso_num : N) : option str :=
  match curso_num with
  | 1 => Some (lit "1r ESO")
  | 2 => Some (lit "2n ESO")
  | 3 => Some (lit "3r ESO")
  | 4 => Some (lit "4t ESO")
  | 5 => Some (lit "5" ++ [232] ++ lit " ESO")
  | 6 => Some (lit "6" ++ [232] ++ lit " ESO")
  | _ => None
  end%N.

(** [int(ch)] for a one-character string: the value of a decimal digit,
    [None] for the [ValueError] on any other character. *)
Definition int_of_char (ch : codepoint) : option N := unicode_decimal ch.

Definition extract_curso_from_id (text_id : str) : str :=
  if (length text_id <? 3)%nat then default_curso
  else
    match nth_error text_id 2 with
    | None => default_curso                       (* IndexError *)
    | Some ch =>
        match int_of_char ch with
        | None => default_curso                   (* ValueError *)
        | Some curso_num =>
            match curso_ordinals curso_num with
            | Some label => label
            | None => str_of_N curso_num ++ [232%N] ++ lit " ESO"
            end
        end
    end.

End Identifiers.

(** ** JSON values

    What [json.loads] returns: [None], [bool], [int], [float], [str],
    [list] and [dict] (its entries in insertion order, keys distinct). *)

Inductive json :=
| JNull
| JBool (b : bool)
| JInt (z : Z)
| JFloat (f : spec_float)
| JStr (s : str)
| JArr (items : list json)
| JObj (entries : list (str * json)).

Fixpoint assoc {A} (key : str) (entries : list (str * A)) : option A :=
  match entries with
  | [] => None
  | (k, v) :: rest => if str_eqb k key then Some v else assoc key rest
  end.

(** [d.get(key, default)]; an [AttributeError] when [d] is not a dict. *)
Definition dict_get (d : json) (key : str) (default : json) : result json :=
  match d with
  | JObj entries =>
      Ok (match assoc key entries with Some v => v | None => default end)
  | _ => Raise AttributeError
  end.

(** Truth value of a value, as [if v:] takes it. *)
Definition truthy (v : json) : bool :=
  match v with
  | JNull => false
  | JBool b => b
  | JInt z => negb (z =? 0)%Z
  | JFloat (S754_zero _) => false
  | JFloat _ => true
  | JStr s => match s with [] => false | _ => true end
  | JArr items => match items with [] => false | _ => true end
  | JObj entries => match entries with [] => false | _ => true end
  end.

(** The elements [list.extend(v)] appends: the items of a list, the
    characters of a str, the keys of a dict; a [TypeError] otherwise. *)
Definition iterate (v : json) : result (list json) :=
  match v with
  | JArr items => Ok items
  | JStr s => Ok (map (fun c => JStr [c]) s)
  | JObj entries => Ok (map (fun kv => JStr (fst kv)) entries)
  | _ => Raise TypeError
  end.

(** [format(v, '.1f')] succeeds on numbers only; an [int] must fit a
    float.  The text produced is not modelled. *)
Definition format_1f (v : json) : result unit :=
  match v with
  | JInt z =>
      if (Z.abs z <? 2 ^ 1024 - 2 ^ 970)%Z then Ok tt else Raise OverflowError
  | JFloat _ | JBool _ => Ok tt
  | JStr _ => Raise ValueError
  | JNull | JArr _ | JObj _ => Raise TypeError
  end.

(** [s == v] for a str [s] and a decoded value [v]. *)
Definition str_eq_json (s : str) (v : json) : bool :=
  match v with
  | JStr s' => str_eqb s s'
  | _ => false
  end.

(** ** [stream_results] *)

(** The dictionary [event_data]: at most the keys ['event'] and ['data']. *)
Record event_data := { event : option str; data : option json }.

(** What the function prints, without the formatting. *)
Inductive message :=
| Progress (completed total percentage : json)
| JobCompleted
| ErrorMessage (error_msg : json)
| StreamingFailed.

(** The mutable state of one call: the list [results], what was printed,
    and (a ghost field, the code keeps no such list) the [event_data]
    dictionaries that reached the dispatch on the event type, oldest
    first. *)
Record state := {
  results : list json;
  printed : list message;
  handled : list event_data
}.

Definition initial : state :=
  {| results := []; printed := []; handled := [] |}.

(** How a pass through the body of the [while] loop ends. *)
Inductive flow := Next | Break.

(** The response of [requests.get(url, stream=True, timeout=300)] as the
    function sees it: the request fails (connection, time-out, or
    [raise_for_status]), or [iter_content] yields text chunks and then
    either ends or raises a [RequestException]. *)
Inductive stream_end := EndOfStream | TransportFailure.

Inductive response :=
| RequestFailed
| Streaming (chunks : list str) (ending : stream_end).

Section Stream.

(** [json.loads]: [None] stands for the [JSONDecodeError].  The other
    exceptions of the decoder ([ValueError] on an integer beyond the
    digit limit, [RecursionError] on a deeply nested text), which the
    code does not catch, are outside the model. *)
Variable json_loads : str -> option json.

(** One line of a frame, in the [for line in lines] loop. *)
Definition parse_line (ed : event_data) (line : str) : event_data :=
  if startswith line (lit "event:") then
    {| event := Some (strip (skipn 6 line)); data := data ed |}
  else if startswith line (lit "data:") then
    match json_loads (strip (skipn 5 line)) with
    | Some v => {| event := event ed; data := Some v |}
    | None => ed                                 (* except: pass *)
    end
  else ed.

Definition parse_event (event_text : str) : event_data :=
  fold_left parse_line (split_lines (strip event_text))
            {| event := None; data := None |}.

Definition event_is (ed : event_data) (name : string) : bool :=
  match event ed with
  | Some e => str_eqb e (lit name)
  | None => false
  end.

(** The [if]/[elif] chain on the event type. *)
Definition dispatch (ed : event_data) (st : state)
  : result (flow * state) :=
  let seen := handled st ++ [ed] in
  let d := match data ed with Some v => v | None => JObj [] end in
  if event_is ed "batch_complete" then
    batch_results <- dict_get d (lit "results") (JArr []) ;;
    new <- iterate batch_results ;;
    progress <- dict_get d (lit "progress") (JObj []) ;;
    if truthy progress then
      completed <- dict_get progress (lit "completed") (JInt 0) ;;
      total <- dict_get progress (lit "total") (JInt 0) ;;
      percentage <- dict_get progress (lit "percentage") (JInt 0) ;;
      _ <- format_1f percentage ;;
      Ok (Next, {| results := results st ++ new;
                   printed := printed st
                              ++ [Progress completed total percentage];
                   handled := seen |})
    else
      Ok (Next, {| results := results st ++ new;
                   printed := printed st;
                   handled := seen |})
  else if event_is ed "complete" then
    Ok (Break, {| results := results st;
                  printed := printed st ++ [JobCompleted];
                  handled := seen |})
  else if event_is ed "error" then
    error_msg <- dict_get d (lit "message") (JStr (lit "Unknown error")) ;;
    Ok (Break, {| results := results st;
                  printed := printed st ++ [ErrorMessage error_msg];
                  handled := seen |})
  else
    Ok (Next, {| results := results st;
                 printed := printed st;
                 handled := seen |}).

(** [while '\n\n' in buffer]: frames are taken off the front of the
    buffer until none is left or one of them breaks out of the loop.
    The result is the buffer that remains and the state. *)
Equations? process_buffer (buffer : str) (st : state)
  : result (str * state) by wf (length buffer) lt :=
  process_buffer buffer st with inspect (split_blank buffer) := {
    | exist _ None _ => Ok (buffer, st)
    | exist _ (Some (event_text, rest)) Hsplit
        with dispatch (parse_event event_text) st := {
        | Raise e => Raise e
        | Ok (Break, st') => Ok (rest, st')
        | Ok (Next, st') => process_buffer rest st' } }.
Proof.
  clear process_buffer st. revert event_text rest Hsplit.
  induction buffer as [|c s IH]; intros a b; simpl; [discriminate|].
  destruct (N.eqb c LF && _).
  - intros [= _ <-]. destruct s; simpl; lia.
  - destruct (split_blank s) as [[a' b']|]; [|discriminate].
    intros [= _ <-]. specialize (IH _ _ eq_refl). lia.
Qed.

(** [for chunk in response.iter_content(...)]. *)
Fixpoint read_chunks (chunks : list str) (buffer : str) (st : state)
  : result (str * state) :=
  match chunks with
  | [] => Ok (buffer, st)
  | chunk :: chunks' =>
      match chunk with
      | [] => read_chunks chunks' buffer st                (* if chunk: *)
      | _ :: _ =>
          bs <- process_buffer (buffer ++ chunk) st ;;
          read_chunks chunks' (fst bs) (snd bs)
      end
  end.

(** The call with its state: [Ok] is the state at [return results],
    [Raise] an exception that is no [RequestException] and escapes. *)
Definition stream_results_state (resp : response) : result state :=
  match resp with
  | RequestFailed =>
      Ok {| results := []; printed := [StreamingFailed]; handled := [] |}
  | Streaming chunks ending =>
      bs <- read_chunks chunks [] initial ;;
      let st := snd bs in
      match ending with
      | EndOfStream => Ok st
      | TransportFailure =>
          Ok {| results := results st;
                printed := printed st ++ [StreamingFailed];
                handled := handled st |}
      end
  end.

Definition stream_results (resp : response) : result (list json) :=
  st <- stream_results_state resp ;; Ok (results st).

End Stream.

(** ** The prompt table *)

(** A cell of a frame read by [pandas.read_csv]: an integer, a text, or
    anything else (a float, a boolean, a missing value), kept with the
    text [str] gives for it. *)
Inductive cell :=
| CInt (z : Z)
| CStr (s : str)
| COther (text : str).

(** [column.astype(str)], cell by cell. *)
Definition astype_str (c : cell) : str :=
  match c with
  | CInt z => str_of_Z z
  | CStr s => s
  | COther text => text
  end.

(** The missing value, with which [read_csv] pads a short row. *)
Definition NaN : cell := COther (lit "nan").

(** A frame: its column labels and its rows, one cell per column. *)
Record DataFrame := { columns : list str; rows : list (list cell) }.

(** [pd.DataFrame()] *)
Definition empty_frame : DataFrame := {| columns := []; rows := [] |}.

(** [df.empty]: some axis has length 0. *)
Definition empty (df : DataFrame) : bool :=
  match columns df, rows df with
  | _ :: _, _ :: _ => false
  | _, _ => true
  end.

(** [label in df.columns] *)
Definition has_column (label : str) (df : DataFrame) : bool :=
  existsb (str_eqb label) (columns df).

(** [df.rename(columns={old: new}, inplace=True)] *)
Definition rename (old new : str) (df : DataFrame) : DataFrame :=
  {| columns := map (fun c => if str_eqb c old then new else c) (columns df);
     rows := rows df |}.

(** Position of the first column with this label. *)
Fixpoint column_index (label : str) (cols : list str) : option nat :=
  match cols with
  | [] => None
  | c :: cols' =>
      if str_eqb c label then Some 0%nat
      else option_map S (column_index label cols')
  end.

(** [load_consignas_csv]; the argument is the content of
    [consignas.csv] as [pd.read_csv] returns it, [None] when the file does
    not exist. *)
Definition load_consignas_csv (csv : option DataFrame) : DataFrame :=
  match csv with
  | None => empty_frame
  | Some df =>
      let df := if has_column (lit "File ID") df
                then rename (lit "File ID") (lit "FileID") df else df in
      let df := if has_column (lit "TEXTpost2") df
                then rename (lit "TEXTpost2") (lit "Consigna") df else df in
      df
  end.

(** The rows [consignas_df[consignas_df['ID'].astype(str) == text_id]];
    a [KeyError] when the frame has no column ['ID']. *)
Definition rows_with_id (consignas_df : DataFrame) (text_id : str)
  : result (list (list cell)) :=
  match column_index (lit "ID") (columns consignas_df) with
  | None => Raise (KeyError (lit "ID"))
  | Some i =>
      Ok (filter (fun row => str_eqb (astype_str (nth i row NaN)) text_id)
                 (rows consignas_df))
  end.

(** Lines 274 to 279 of [process_folder]: the prompt for [text_id]. *)
Definition lookup_consigna (consignas_df : DataFrame) (text_id : str)
  : result cell :=
  consigna_row <- rows_with_id consignas_df text_id ;;
  match consigna_row with
  | [] => Ok (CStr (lit "N/A"))
  | row0 :: _ =>
      match column_index (lit "Consigna") (columns consignas_df) with
      | None => Raise (KeyError (lit "Consigna"))
      | Some j => Ok (nth j row0 NaN)
      end
  end.

(** ** Files and batches *)

(** A file of the folder: its name and its text, [None] when reading it
    fails. *)
Record file := { name : str; content : option str }.

Definition read_text_file (f : file) : str :=
  match content f with
  | Some text => strip text
  | None => []
  end.

(** Insertion of a file in a list sorted by name. *)
Fixpoint insert_by_name (f : file) (fs : list file) : list file :=
  match fs with
  | [] => [f]
  | g :: fs' =>
      if str_ltb (name f) (name g) then f :: fs
      else g :: insert_by_name f fs'
  end.

(** [sorted(folder_path.glob('*_NOR.txt'))], from the entries of the
    folder. *)
Definition get_nor_files (entries : list file) : list file :=
  fold_right insert_by_name []
    (filter (fun f => endswith (name f) NOR_txt) entries).

(** [range(0, stop, step)] from [i] on, for the steps a [for] loop takes;
    nothing when [step] is not positive. *)
Equations? range_from (i stop step : Z) : list Z
  by wf (Z.to_nat (stop - i)) lt :=
  range_from i stop step with inspect ((0 <? step)%Z && (i <? stop)%Z) := {
    | exist _ true Hlt => i :: range_from (i + step) stop step
    | exist _ false _ => [] }.
Proof.
  apply andb_true_iff in Hlt as [H1 H2].
  apply Z.ltb_lt in H1, H2. lia.
Qed.

(** [range(0, stop, step)] for [0 <= stop]; [range] refuses a step of 0. *)
Definition range0 (stop step : Z) : result (list Z) :=
  if (step =? 0)%Z then Raise ValueError else Ok (range_from 0 stop step).

(** [l[i:j]] for [0 <= i <= j]. *)
Definition slice {A} (l : list A) (i j : Z) : list A :=
  firstn (Z.to_nat (j - i)) (skipn (Z.to_nat i) l).

(** The values [batch_files] takes in the loop of [process_folder]. *)
Definition batches {A} (nor_files : list A) (batch_size : Z)
  : result (list (list A)) :=
  starts <- range0 (Z.of_nat (length nor_files)) batch_size ;;
  Ok (map (fun i => slice nor_files i (i + batch_size)) starts).

Module Item.
(** An entry of [batch_items]. *)
Record t := {
  id_alumno : str;
  curso : str;
  consigna : cell;
  respuesta : str
}.
End Item.

Module Meta.
(** An entry of [file_metadata]. *)
Record t := {
  id : str;
  filename : str;
  consigna : cell;
  curso : str
}.
End Meta.

Module Row.
(** An entry of [all_results]. *)
Record t := {
  folder : str;
  id : json;
  filename : str;
  curso : str;
  consigna : cell;
  nota : json;
  feedback : json
}.
End Row.

(** ** [process_folder] *)

(** What the service answers to one submitted batch: the decoded body of
    the answer to [POST /evaluate] ([None] when the request fails with a
    [RequestException]) and the response to [GET /stream/<job_id>]. *)
Record reply := { job_info : option json; stream : response }.

Section Folder.

Variable unicode_decimal : codepoint -> option N.
Variable json_loads : str -> option json.

(** The loop [for file_path in batch_files]: the lists [batch_items] and
    [file_metadata] it builds. *)
Fixpoint prepare_batch (consignas_df : DataFrame) (batch_files : list file)
  : result (list Item.t * list Meta.t) :=
  match batch_files with
  | [] => Ok ([], [])
  | file_path :: rest =>
      match extract_id_from_filename unicode_decimal (name file_path) with
      | None | Some [] => prepare_batch consignas_df rest   (* continue *)
      | Some text_id =>
          let curso := extract_curso_from_id unicode_decimal text_id in
          match read_text_file file_path with
          | [] => prepare_batch consignas_df rest           (* continue *)
          | respuesta =>
              consigna <- lookup_consigna consignas_df text_id ;;
              more <- prepare_batch consignas_df rest ;;
              Ok ({| Item.id_alumno := text_id;
                     Item.curso := curso;
                     Item.consigna := consigna;
                     Item.respuesta := respuesta |} :: fst more,
                  {| Meta.id := text_id;
                     Meta.filename := name file_path;
                     Meta.consigna := consigna;
                     Meta.curso := curso |} :: snd more)
          end
      end
  end.

Definition submit_evaluation_job (r : reply) : option json := job_info r.

Definition evaluate_texts (r : reply) : result (list json) :=
  match submit_evaluation_job r with
  | None => Ok []
  | Some job_info =>
      if truthy job_info then
        _ <- dict_get job_info (lit "job_id") JNull ;;
        _ <- dict_get job_info (lit "estimated_time_seconds") (JInt 0) ;;
        stream_results json_loads (stream r)
      else Ok []
  end.

(** [next((m for m in file_metadata if m['id'] == id_alumno), None)] *)
Definition find_metadata (file_metadata : list Meta.t) (id_alumno : json)
  : option Meta.t :=
  find (fun m => str_eq_json (Meta.id m) id_alumno) file_metadata.

(** The loop [for result in results]: the rows it appends. *)
Fixpoint match_results (folder_name : str) (file_metadata : list Meta.t)
    (results : list json) : result (list Row.t) :=
  match results with
  | [] => Ok []
  | result :: rest =>
      id_alumno <- dict_get result (lit "id_alumno") JNull ;;
      match find_metadata file_metadata id_alumno with
      | Some metadata =>
          nota <- dict_get result (lit "nota") JNull ;;
          feedback <- dict_get result (lit "feedback") JNull ;;
          more <- match_results folder_name file_metadata rest ;;
          Ok ({| Row.folder := folder_name;
                 Row.id := id_alumno;
                 Row.filename := Meta.filename metadata;
                 Row.curso := Meta.curso metadata;
                 Row.consigna := Meta.consigna metadata;
                 Row.nota := nota;
                 Row.feedback := feedback |} :: more)
      | None => match_results folder_name file_metadata rest
      end
  end.

(** The loop over the batches.  [service k items] is the reply to the
    [k]-th job submitted for the folder. *)
Fixpoint process_batches (folder_name : str) (consignas_df : DataFrame)
    (service : nat -> list Item.t -> reply) (k : nat)
    (all_batches : list (list file)) : result (list Row.t) :=
  match all_batches with
  | [] => Ok []
  | batch_files :: rest =>
      prepared <- prepare_batch consignas_df batch_files ;;
      match fst prepared with
      | [] => process_batches folder_name consignas_df service k rest
      | batch_items =>
          results <- evaluate_texts (service k batch_items) ;;
          new <- match_results folder_name (snd prepared) results ;;
          more <- process_batches folder_name consignas_df service (S k) rest ;;
          Ok (new ++ more)
      end
  end.

(** [process_folder]: the rows of the frame it returns. *)
Definition process_folder (folder_name : str) (csv : option DataFrame)
    (entries : list file) (batch_size : Z)
    (service : nat -> list Item.t -> reply) : result (list Row.t) :=
  let consignas_df := load_consignas_csv csv in
  if empty consignas_df then Ok []
  else
    match get_nor_files entries with
    | [] => Ok []
    | nor_files =>
        all_batches <- batches nor_files batch_size ;;
        process_batches folder_name consignas_df service 0 all_batches
    end.

End Folder.

(** * Vocabulary of the properties, and examples *)

(** The decimal digits of ASCII alone: the table restricted to the
    characters the examples below use. *)
Definition ascii_decimal (c : codepoint) : option N :=
  if ((48 <=? c) && (c <=? 57))%N then Some (c - 48)%N else None.

(** A literal in which ['] stands for the double quote. *)
Definition dq (s : string) : str :=
  map (fun c => if N.eqb c 39 then 34%N else c) (lit s).

(** The payloads of the examples and what [json.loads] returns for
    them. *)
Definition results_text : str :=
  dq "{'results': [{'id_alumno': '11410001', 'nota': 7}]}".

Definition sample_result : json :=
  JObj [(lit "id_alumno", JStr (lit "11410001")); (lit "nota", JInt 7)].

Definition scenario_text : str :=
  dq "{'results': [{'id_alumno': '11410001', 'nota': 7}, "
  ++ dq "{'id_alumno': '11510002', 'nota': 5, 'feedback': 'ok'}]}".

Definition scenario_results : list json :=
  [ sample_result;
    JObj [(lit "id_alumno", JStr (lit "11510002")); (lit "nota", JInt 5);
          (lit "feedback", JStr (lit "ok"))] ].

(** [json.loads] on the texts the examples use; every other text is
    refused, which is right for the malformed text [{bad] used with it. *)
Definition sample_loads (text : str) : option json :=
  if str_eqb text results_text
  then Some (JObj [(lit "results", JArr [sample_result])])
  else if str_eqb text scenario_text
  then Some (JObj [(lit "results", JArr scenario_results)])
  else if str_eqb text (lit "{}") then Some (JObj [])
  else None.

Definition frame (event_line data_line : str) : str :=
  event_line ++ [LF] ++ data_line ++ [LF; LF].

(** The labels of the six grades, in order. *)
Definition ordinal_labels : list str :=
  [lit "1r ESO"; lit "2n ESO"; lit "3r ESO"; lit "4t ESO";
   lit "5" ++ [232%N] ++ lit " ESO"; lit "6" ++ [232%N] ++ lit " ESO"].

(** A text made of decimal digits. *)
Definition all_digits (unicode_decimal : codepoint -> option N) (ds : str)
  : Prop :=
  Forall (fun c => is_digit unicode_decimal c = true) ds.

(** The two texts the tail of the pattern accepts. *)
Definition tail_of_name (tail : str) : Prop :=
  tail = NOR_txt \/ tail = NOR_txt ++ [LF].

(** The result entries a [batch_complete] event carries: what the
    dispatch appends to [results] for it. *)
Definition emitted (ed : event_data) : list json :=
  if event_is ed "batch_complete" then
    match data ed with
    | Some (JObj entries) =>
        match assoc (lit "results") entries with
        | Some (JArr items) => items
        | Some (JStr s) => map (fun c => JStr [c]) s
        | Some (JObj keys) => map (fun kv => JStr (fst kv)) keys
        | _ => []
        end
    | _ => []
    end
  else [].

(** [results] holds the entries of the events handled so far. *)
Definition results_are_emitted (st : state) : Prop :=
  results st = flat_map emitted (handled st).

(** The events that end a job. *)
Definition is_terminal (ed : event_data) : bool :=
  event_is ed "complete" || event_is ed "error".

(** [event: complete\ndata: {}\n\n] *)
Definition complete_frame : str :=
  frame (lit "event: complete") (lit "data: {}").

(** [event: batch_complete\ndata: {"results": [...]}\n\n] *)
Definition batch_frame : str :=
  frame (lit "event: batch_complete") (lit "data: " ++ results_text).

(** [event: complete\ndata: {bad\n\n], a payload that does not decode. *)
Definition corrupt_complete_frame : str :=
  frame (lit "event: complete") (lit "data: {bad").

Definition complete_event : event_data :=
  {| event := Some (lit "complete"); data := Some (JObj []) |}.

Definition batch_event : event_data :=
  {| event := Some (lit "batch_complete");
     data := Some (JObj [(lit "results", JArr [sample_result])]) |}.

(** The label a column has after loading. *)
Definition canonical (label : str) : str :=
  if str_eqb label (lit "File ID") then lit "FileID"
  else if str_eqb label (lit "TEXTpost2") then lit "Consigna"
  else label.

(** A table with the columns ['ID'], ['File ID'] and ['TEXTpost2']. *)
Definition sample_table : DataFrame :=
  {| columns := [lit "ID"; lit "File ID"; lit "TEXTpost2"];
     rows := [[CInt 11410001; CStr (lit "POS1_11410001.txt");
               CStr (lit "Describe X")]] |}.

(** A streamed entry that is a dictionary. *)
Definition is_object (v : json) : Prop := exists entries, v = JObj entries.

(** Its value under ['id_alumno'], [None] when it has none. *)
Definition id_of (result : json) : json :=
  match result with
  | JObj entries =>
      match assoc (lit "id_alumno") entries with
      | Some v => v
      | None => JNull
      end
  | _ => JNull
  end.

(** How many values of a list are the text [sid]. *)
Definition count_id (sid : str) (ids : list json) : nat :=
  length (filter (str_eq_json sid) ids).

(** The metadata of two files that bear the same identifier. *)
Definition sample_metadata : list Meta.t :=
  [ {| Meta.id := lit "11410001"; Meta.filename := lit "POS1_11410001_NOR.txt";
       Meta.consigna := CStr (lit "Describe X"); Meta.curso := lit "4t ESO" |};
    {| Meta.id := lit "11410001"; Meta.filename := lit "B_11410001_NOR.txt";
       Meta.consigna := CStr (lit "N/A"); Meta.curso := lit "4t ESO" |} ].

(** Two files of a folder; the prompt table has a row for the first
    only. *)
Definition sample_files : list file :=
  [ {| name := lit "POS1_11410001_NOR.txt"; content := Some (lit "Hello") |};
    {| name := lit "POS1_11510002_NOR.txt"; content := Some (lit "World") |} ].

(** The service of the scenario: it accepts the job and streams one
    [batch_complete] frame with a result for each file, then [complete]. *)
Definition scenario_service (k : nat) (items : list Item.t) : reply :=
  {| job_info := Some (JObj [(lit "job_id", JStr (lit "J1"));
                             (lit "estimated_time_seconds", JInt 2)]);
     stream := Streaming
                 [frame (lit "event: batch_complete")
                        (lit "data: " ++ scenario_text)
                  ++ frame (lit "event: complete") (lit "data: {}")]
                 EndOfStream |}.

(** ** Orders, valid files and jobs *)

(** A chunk of the stream that is not empty. *)
Definition nonempty (chunk : str) : bool :=
  match chunk with [] => false | _ :: _ => true end.

(** [json.loads] of the examples, and of the text [[]]. *)
Definition list_loads (text : str) : option json :=
  if str_eqb text (lit "[]") then Some (JArr []) else sample_loads text.

(** [a <= b] on texts, by code points. *)
Definition str_le (a b : str) : Prop := str_ltb b a = false.

(** Files in the order of their names. *)
Definition name_le (f g : file) : Prop := str_le (name f) (name g).

(** A text of white space only (the empty text included). *)
Definition blank (text : str) : Prop :=
  Forall (fun c => is_space c = true) text.

(** A file that passes the two checks of the batch loop: its name yields
    an identifier and its text is not empty once stripped. *)
Definition valid_file (unicode_decimal : codepoint -> option N) (f : file)
  : bool :=
  match extract_id_from_filename unicode_decimal (name f) with
  | None | Some [] => false
  | Some _ => nonempty (read_text_file f)
  end.

(** ** [combine_results]

    The part of [combine_results] that chooses what to combine: for each
    folder, the report files it finds and the one it reads.  Reading the
    files and concatenating the frames is [pandas]'s. *)

(** [f"results_{folder_name}_{timestamp}.csv"], the name [main] gives to
    the report of a folder. *)
Definition output_filename (folder_name timestamp : str) : str :=
  lit "results_" ++ folder_name ++ lit "_" ++ timestamp ++ lit ".csv".

Section Combine.

(** [glob_match pattern name]: whether a file name matches a pattern of
    [Path.glob]; the matching is the library's. *)
Variable glob_match : str -> str -> bool.

(** [f"results_{folder_name}_*.csv"] *)
Definition report_pattern (folder_name : str) : str :=
  lit "results_" ++ folder_name ++ lit "_*.csv".

(** [sorted(folder_path.glob(...))], from the entries of the folder. *)
Definition csv_files (folder_name : str) (entries : list file) : list file :=
  fold_right insert_by_name []
    (filter (fun f => glob_match (report_pattern folder_name) (name f))
            entries).

(** [csv_files[-1]] under [if csv_files:]. *)
Definition latest_csv (folder_name : str) (entries : list file)
  : option file :=
  match rev (csv_files folder_name entries) with
  | latest :: _ => Some latest
  | [] => None
  end.

(** [pd.read_csv(latest_csv)]: the parsing is the library's; [None] when
    it raises (an empty or malformed file). *)
Variable read_csv : file -> option DataFrame.

(** The loop over the folders: the frames appended to [all_results], in
    order; [None] when a [read_csv] raises, which nothing catches.
    [dir folder_name] holds the entries of the folder. *)
Fixpoint combine_results (folders : list str) (dir : str -> list file)
  : option (list DataFrame) :=
  match folders with
  | [] => Some []
  | folder_name :: rest =>
      match latest_csv folder_name (dir folder_name) with
      | Some latest =>
          match read_csv latest with
          | Some df =>
              match combine_results rest dir with
              | Some all_results => Some (df :: all_results)
              | None => None
              end
          | None => None
          end
      | None => combine_results rest dir
      end
  end.

End Combine.

(** A matching of the patterns [results_<folder>_*.csv] for folder names
    without wildcard: the name starts with [results_<folder>_], ends in
    [.csv], and the two parts do not overlap. *)
Definition sample_glob (pattern name : str) : bool :=
  let prefix := firstn (length pattern - 5) pattern in
  startswith name prefix && endswith name (lit ".csv")
  && (length prefix + 4 <=? length name)%nat.

(** Three entries of the folder ["POS1"]: two reports and a text file. *)
Definition sample_reports : list file :=
  [ {| name := output_filename (lit "POS1") (lit "20240102_090000");
       content := Some (lit "later") |};
    {| name := lit "POS1_11410001_NOR.txt"; content := Some (lit "Hello") |};
    {| name := output_filename (lit "POS1") (lit "20240101_120000");
       content := Some (lit "earlier") |} ].

(** A table without the column ['ID']. *)
Definition table_without_id : DataFrame :=
  {| columns := [lit "File ID"; lit "TEXTpost2"];
     rows := [[CStr (lit "POS1_11410001.txt"); CStr (lit "Describe X")]] |}.

(** A reading of reports: one row holding the text of the file; a file
    without text does not parse. *)
Definition sample_read_csv (f : file) : option DataFrame :=
  match content f with
  | Some (c :: text) =>
      Some {| columns := [lit "nota"]; rows := [[CStr (c :: text)]] |}
  | _ => None
  end.

(** The folders of the examples: ["POS1"] holds [sample_reports],
    ["POS2"] one report, any other folder is empty. *)
Definition sample_dir (folder_name : str) : list file :=
  if str_eqb folder_name (lit "POS1") then sample_reports
  else if str_eqb folder_name (lit "POS2") then
    [ {| name := output_filename (lit "POS2") (lit "20240103_080000");
         content := Some (lit "second") |} ]
  else [].

(** The number of jobs that a list of batches submits: one for each
    batch that has an item. *)
Definition jobs (unicode_decimal : codepoint -> option N)
    (consignas_df : DataFrame) (all_batches : list (list file)) : nat :=
  length
    (filter (fun batch_files =>
               match prepare_batch unicode_decimal consignas_df batch_files
               with
               | Ok (_ :: _, _) => true
               | _ => false
               end)
            all_batches).

(** A prompt table with its header and no row. *)
Definition header_only_table : DataFrame :=
  {| columns := [lit "ID"; lit "Consigna"]; rows := [] |}.

(** A service that refuses the first job and answers the later ones as
    [scenario_service] does. *)
Definition refusing_first (k : nat) (items : list Item.t) : reply :=
  match k with
  | O => {| job_info := None; stream := RequestFailed |}
  | S _ => scenario_service k items
  end.

(** A file extension, as [<ext>] in [<prefix>_<digits>_NOR<ext>]: a dot
    and a text without dot (what [Path.suffix] returns). *)
Definition DOT : codepoint := 46%N.

Definition is_extension (ext : str) : Prop :=
  exists rest, ext = DOT :: rest /\ ~ In DOT rest.

(** A table with rows and the column ['ID'], without the column
    ['Consigna']. *)
Definition table_without_consigna : DataFrame :=
  {| columns := [lit "ID"; lit "Prompt"];
     rows := [[CInt 11410001; CStr (lit "Describe X")]] |}.

(** * Properties *)

(** ** Text *)

Lemma str_eqb_eq (a b : str) : str_eqb a b = true <-> a = b.
Proof.
  revert b. induction a as [|x a IH]; intros [|y b]; simpl;
    try (split; [discriminate | congruence]); [tauto|].
  rewrite andb_true_iff, N.eqb_eq, IH. split.
  - intros [-> ->]. reflexivity.
  - intros [= -> ->]. split; reflexivity.
Qed.

Lemma str_eqb_refl (a : str) : str_eqb a a = true.
Proof. apply str_eqb_eq. reflexivity. Qed.

Lemma str_eqb_neq (a b : str) : str_eqb a b = false <-> a <> b.
Proof.
  rewrite <- str_eqb_eq. destruct (str_eqb a b); split; congruence.
Qed.

(** ** Batches *)

Lemma range_from_eq (i stop step : Z) :
  range_from i stop step =
    if ((0 <? step) && (i <? stop))%Z
    then i :: range_from (i + step) stop step
    else [].
Proof.
  funelim (range_from i stop step).
  - rewrite Hlt. reflexivity.
  - rewrite e. reflexivity.
Qed.

Section Batches.

Variable A : Type.
Variable nor_files : list A.
Variable batch_size : Z.
Hypothesis batch_size_pos : (1 <= batch_size)%Z.

Lemma starts_past (i : Z) :
  (Z.of_nat (length nor_files) <= i)%Z ->
  range_from i (Z.of_nat (length nor_files)) batch_size = [].
Proof.
  intros Hi. rewrite range_from_eq.
  replace (i <? Z.of_nat (length nor_files))%Z with false
    by (symmetry; apply Z.ltb_ge; exact Hi).
  rewrite andb_false_r. reflexivity.
Qed.

Lemma starts_step (i : Z) :
  (i < Z.of_nat (length nor_files))%Z ->
  range_from i (Z.of_nat (length nor_files)) batch_size
    = i :: range_from (i + batch_size) (Z.of_nat (length nor_files))
             batch_size.
Proof.
  intros Hi. rewrite range_from_eq at 1.
  replace (0 <? batch_size)%Z with true by (symmetry; apply Z.ltb_lt; lia).
  replace (i <? Z.of_nat (length nor_files))%Z with true
    by (symmetry; apply Z.ltb_lt; exact Hi).
  reflexivity.
Qed.

(** The batches from position [i] on are the files from [i] on. *)
Lemma concat_from (m : nat) :
  forall i,
    (0 <= i)%Z ->
    (Z.to_nat (Z.of_nat (length nor_files) - i) <= m)%nat ->
    concat (map (fun j => slice nor_files j (j + batch_size))
                (range_from i (Z.of_nat (length nor_files)) batch_size))
      = skipn (Z.to_nat i) nor_files.
Proof.
  induction m as [|m IH]; intros i Hi Hm.
  - rewrite starts_past by lia. symmetry. apply skipn_all2. lia.
  - destruct (Z.lt_ge_cases i (Z.of_nat (length nor_files))) as [Hlt|Hge].
    + rewrite starts_step by assumption. cbn [map concat].
      rewrite IH by lia. unfold slice.
      replace (i + batch_size - i)%Z with batch_size by lia.
      replace (Z.to_nat (i + batch_size))
        with (Z.to_nat batch_size + Z.to_nat i)%nat by lia.
      rewrite <- skipn_skipn. apply firstn_skipn.
    + rewrite starts_past by assumption. symmetry. apply skipn_all2. lia.
Qed.

(** The number of starts from [i] on. *)
Lemma length_from (m : nat) :
  forall i,
    (i < Z.of_nat (length nor_files))%Z ->
    (Z.to_nat (Z.of_nat (length nor_files) - i) <= m)%nat ->
    Z.of_nat
      (length (range_from i (Z.of_nat (length nor_files)) batch_size))
      = ((Z.of_nat (length nor_files) - i - 1) / batch_size + 1)%Z.
Proof.
  induction m as [|m IH]; intros i Hi Hm; [lia|].
  rewrite starts_step by assumption. cbn [length].
  destruct (Z.lt_ge_cases (i + batch_size) (Z.of_nat (length nor_files)))
    as [Hlt|Hge].
  - rewrite Nat2Z.inj_succ, IH by lia.
    replace (Z.of_nat (length nor_files) - i - 1)%Z
      with (Z.of_nat (length nor_files) - (i + batch_size) - 1
            + 1 * batch_size)%Z by lia.
    rewrite Z.div_add by lia. lia.
  - rewrite starts_past by assumption. cbn [length].
    rewrite Z.div_small by lia. reflexivity.
Qed.

(** The [k]-th start from [i] on is [i + k * batch_size], and is a
    position of the list. *)
Lemma nth_start (k : nat) :
  forall i j,
    nth_error (range_from i (Z.of_nat (length nor_files)) batch_size) k
      = Some j ->
    j = (i + Z.of_nat k * batch_size)%Z /\
    (j < Z.of_nat (length nor_files))%Z.
Proof.
  induction k as [|k IH]; intros i j;
    destruct (Z.lt_ge_cases i (Z.of_nat (length nor_files))) as [Hlt|Hge];
    try (rewrite starts_past by assumption; discriminate);
    rewrite starts_step by assumption; cbn [nth_error].
  - intros [= <-]. lia.
  - intros H. apply IH in H. rewrite Nat2Z.inj_succ. nia.
Qed.

Lemma length_batch_at (j : Z) :
  (0 <= j <= Z.of_nat (length nor_files))%Z ->
  Z.of_nat (length (slice nor_files j (j + batch_size)))
    = Z.min batch_size (Z.of_nat (length nor_files) - j).
Proof.
  intros Hj. unfold slice. rewrite length_firstn, length_skipn. lia.
Qed.

End Batches.

(** C6.  For every list of scanned files and every batch size of at least
    1, the loop of [process_folder] takes batches whose concatenation is
    the list itself (nothing lost, nothing twice, order kept); there are
    exactly ceil(N/B) of them; every batch but the last has B files and
    the last has between 1 and B. *)
Theorem batches_partition (A : Type) (nor_files : list A) (batch_size : Z) :
  (1 <= batch_size)%Z ->
  exists all_batches,
    batches nor_files batch_size = Ok all_batches /\
    concat all_batches = nor_files /\
    Z.of_nat (length all_batches)
      = ((Z.of_nat (length nor_files) + batch_size - 1) / batch_size)%Z /\
    (Z.of_nat (length nor_files)
       <= Z.of_nat (length all_batches) * batch_size
       < Z.of_nat (length nor_files) + batch_size)%Z /\
    forall k batch,
      nth_error all_batches k = Some batch ->
      (1 <= Z.of_nat (length batch) <= batch_size)%Z /\
      ((S k < length all_batches)%nat ->
       Z.of_nat (length batch) = batch_size).
Proof.
  intros Hb.
  set (len := Z.of_nat (length nor_files)).
  set (starts := range_from 0 len batch_size).
  set (all_batches :=
         map (fun i => slice nor_files i (i + batch_size)) starts).
  assert (Hlen : Z.of_nat (length all_batches)
                 = ((len + batch_size - 1) / batch_size)%Z).
  { unfold all_batches. rewrite length_map.
    destruct (Z.lt_ge_cases 0 len) as [Hpos|Hzero].
    - unfold starts, len.
      rewrite (@length_from _ nor_files batch_size Hb
                 (Z.to_nat len) 0%Z) by (fold len; lia).
      fold len.
      replace (len + batch_size - 1)%Z
        with (len - 0 - 1 + 1 * batch_size)%Z by lia.
      rewrite Z.div_add by lia. reflexivity.
    - unfold starts, len.
      rewrite (@starts_past _ nor_files batch_size 0%Z) by (fold len; lia).
      fold len. simpl. rewrite Z.div_small by lia. reflexivity. }
  exists all_batches. repeat split.
  - unfold batches, range0.
    replace (batch_size =? 0)%Z with false
      by (symmetry; apply Z.eqb_neq; lia).
    reflexivity.
  - unfold all_batches, starts, len.
    rewrite (@concat_from _ nor_files batch_size Hb
               (Z.to_nat len) 0%Z) by (fold len; lia).
    reflexivity.
  - exact Hlen.
  - rewrite Hlen.
    pose proof (Z.div_mod (len + batch_size - 1) batch_size ltac:(lia)).
    pose proof (Z.mod_pos_bound (len + batch_size - 1) batch_size ltac:(lia)).
    nia.
  - rewrite Hlen.
    pose proof (Z.div_mod (len + batch_size - 1) batch_size ltac:(lia)).
    pose proof (Z.mod_pos_bound (len + batch_size - 1) batch_size ltac:(lia)).
    nia.
  - unfold all_batches in H. rewrite nth_error_map in H.
    destruct (nth_error starts k) as [j|] eqn:Hj; [|discriminate].
    injection H as <-.
    apply (@nth_start _ nor_files batch_size Hb) in Hj as [-> Hj].
    rewrite (@length_batch_at _ nor_files batch_size) by (fold len; lia).
    fold len. lia.
  - unfold all_batches in H. rewrite nth_error_map in H.
    destruct (nth_error starts k) as [j|] eqn:Hj; [|discriminate].
    injection H as <-.
    apply (@nth_start _ nor_files batch_size Hb) in Hj as [-> Hj].
    rewrite (@length_batch_at _ nor_files batch_size) by (fold len; lia).
    fold len. lia.
  - intros Hk. unfold all_batches in H, Hk. rewrite nth_error_map in H.
    rewrite length_map in Hk.
    destruct (nth_error starts k) as [j|] eqn:Hj; [|discriminate].
    injection H as <-.
    apply (@nth_start _ nor_files batch_size Hb) in Hj as [-> Hj].
    destruct (nth_error starts (S k)) as [j'|] eqn:Hj'.
    + apply (@nth_start _ nor_files batch_size Hb) in Hj' as [-> Hj'].
      rewrite (@length_batch_at _ nor_files batch_size) by (fold len; lia).
      fold len. lia.
    + apply nth_error_None in Hj'. lia.
Qed.

(** [batch_size = 3] on seven files. *)
Lemma batches_partition_witness :
  (1 <= 3)%Z /\
  exists all_batches,
    batches [1; 2; 3; 4; 5; 6; 7]%nat 3 = Ok all_batches /\
    concat all_batches = [1; 2; 3; 4; 5; 6; 7]%nat /\
    Z.of_nat (length all_batches) = ((7 + 3 - 1) / 3)%Z /\
    (7 <= Z.of_nat (length all_batches) * 3 < 7 + 3)%Z /\
    forall k batch,
      nth_error all_batches k = Some batch ->
      (1 <= Z.of_nat (length batch) <= 3)%Z /\
      ((S k < length all_batches)%nat -> Z.of_nat (length batch) = 3%Z).
Proof.
  split; [lia|].
  apply (@batches_partition nat [1; 2; 3; 4; 5; 6; 7]%nat 3%Z). lia.
Defined.

(** ** Identifier and grade level *)

Lemma ascii_decimal_range (c : codepoint) (d : N) :
  ascii_decimal c = Some d -> (d < 10)%N.
Proof.
  unfold ascii_decimal.
  destruct ((48 <=? c) && (c <=? 57))%N eqn:E; [|discriminate].
  apply andb_true_iff in E as [E1 E2].
  apply N.leb_le in E1, E2. intros [= <-]. lia.
Qed.

Lemma ascii_decimal_ascii (c : codepoint) :
  (c < 128)%N ->
  ascii_decimal c =
    if ((48 <=? c) && (c <=? 57))%N then Some (c - 48)%N else None.
Proof. reflexivity. Qed.

Section IdentifierFacts.

Variable unicode_decimal : codepoint -> option N.

(** On ASCII the decimal digits are ['0'] to ['9']. *)
Hypothesis decimal_ascii :
  forall c, (c < 128)%N ->
    unicode_decimal c =
      if ((48 <=? c) && (c <=? 57))%N then Some (c - 48)%N else None.

(** A decimal digit has a value from 0 to 9. *)
Hypothesis decimal_range :
  forall c d, unicode_decimal c = Some d -> (d < 10)%N.

(** C2, as the code has it.  The derivation is total.  An identifier of
    fewer than three characters, or whose character at index 2 is no
    decimal digit, gets ['4t ESO']; a digit from 1 to 6 gets its label; a
    digit outside the table (0, 7, 8, 9) gets the digit followed by
    ['è ESO'], which is not the default. *)
Theorem extract_curso_from_id_cases (text_id : str) :
  ((length text_id < 3)%nat ->
   extract_curso_from_id unicode_decimal text_id = lit "4t ESO") /\
  (forall ch, nth_error text_id 2 = Some ch ->
     match unicode_decimal ch with
     | None => extract_curso_from_id unicode_decimal text_id = lit "4t ESO"
     | Some d =>
         ((1 <= d <= 6)%N ->
          extract_curso_from_id unicode_decimal text_id
            = nth (N.to_nat d - 1) ordinal_labels []) /\
         ((d = 0 \/ 7 <= d)%N ->
          extract_curso_from_id unicode_decimal text_id
            = str_of_N d ++ [232%N] ++ lit " ESO" /\
          extract_curso_from_id unicode_decimal text_id <> lit "4t ESO")
     end).
Proof.
  unfold extract_curso_from_id, int_of_char. split.
  - intros H. apply Nat.ltb_lt in H. rewrite H. reflexivity.
  - intros ch Hch.
    assert (Hlen : (length text_id <? 3)%nat = false).
    { assert (2 < length text_id)%nat
        by (apply nth_error_Some; congruence).
      apply Nat.ltb_ge. lia. }
    rewrite Hlen, Hch.
    destruct (unicode_decimal ch) as [d|] eqn:Hd; [|reflexivity].
    apply decimal_range in Hd.
    split; intros Hcase.
    + assert (E : (d = 1 \/ d = 2 \/ d = 3 \/ d = 4 \/ d = 5 \/ d = 6)%N)
        by lia.
      destruct E as [-> | [-> | [-> | [-> | [-> | ->] ] ] ] ]; reflexivity.
    + assert (E : (d = 0 \/ d = 7 \/ d = 8 \/ d = 9)%N) by lia.
      destruct E as [-> | [-> | [-> | ->] ] ];
        (split; [reflexivity | discriminate]).
Qed.

(** *** The file-name pattern *)

Lemma underscore_no_digit : is_digit unicode_decimal UNDERSCORE = false.
Proof.
  unfold is_digit. rewrite decimal_ascii by (unfold UNDERSCORE; lia).
  reflexivity.
Qed.

Lemma match_tail_spec (s : str) :
  match_tail s = true <-> s = NOR_txt \/ s = NOR_txt ++ [LF].
Proof.
  unfold match_tail. rewrite orb_true_iff, !str_eqb_eq. reflexivity.
Qed.

Lemma group_end_spec (taken s g : str) :
  group_end taken s = Some g ->
  g = rev taken /\ taken <> [] /\ match_tail s = true.
Proof.
  unfold group_end. destruct taken as [|c taken]; [discriminate|].
  destruct (match_tail s); [|discriminate].
  intros [= <-]. repeat split. discriminate.
Qed.

(** What a match of [\d+] and the tail consumed. *)
Lemma match_digits_sound (s : str) :
  forall taken g,
    match_digits unicode_decimal taken s = Some g ->
    exists ds rest,
      s = ds ++ rest /\ all_digits unicode_decimal ds /\
      g = rev taken ++ ds /\
      g <> [] /\ match_tail rest = true.
Proof.
  assert (Hend : forall taken g s0,
             group_end taken s0 = Some g ->
             exists ds rest,
               s0 = ds ++ rest /\ all_digits unicode_decimal ds /\
               g = rev taken ++ ds /\
               g <> [] /\ match_tail rest = true).
  { intros taken g s0 H. apply group_end_spec in H as (-> & Hne & Ht).
    exists [], s0. rewrite app_nil_r. repeat split; try assumption.
    - constructor.
    - intros E. apply Hne. apply (f_equal (@rev _)) in E.
      rewrite rev_involutive in E. exact E. }
  induction s as [|c s IH]; intros taken g; cbn [match_digits].
  - apply Hend.
  - destruct (is_digit unicode_decimal c) eqn:Hc; [|apply Hend].
    destruct (match_digits unicode_decimal (c :: taken) s) as [g'|] eqn:Hm;
      [|apply Hend].
    intros [= <-]. apply IH in Hm as (ds & rest & -> & Hds & -> & Hne & Ht).
    exists (c :: ds), rest. repeat split; try assumption.
    + constructor; assumption.
    + cbn [rev]. rewrite <- app_assoc. reflexivity.
Qed.

(** A run of digits followed by a matching tail is taken whole. *)
Lemma match_digits_complete (ds : str) :
  forall taken rest,
    all_digits unicode_decimal ds -> rev taken ++ ds <> [] ->
    match_tail rest = true ->
    match_digits unicode_decimal taken (ds ++ rest) = Some (rev taken ++ ds).
Proof.
  induction ds as [|d ds IH]; intros taken rest Hds Hne Ht.
  - rewrite app_nil_r in *. cbn [app].
    assert (Hg : group_end taken rest = Some (rev taken)).
    { unfold group_end. destruct taken; [contradiction|].
      rewrite Ht. reflexivity. }
    apply match_tail_spec in Ht as [-> | ->]; cbn [match_digits NOR_txt app];
      fold UNDERSCORE; rewrite underscore_no_digit; exact Hg.
  - inversion Hds as [|? ? Hd Hds']; subst.
    cbn [app match_digits]. rewrite Hd.
    rewrite (IH (d :: taken) rest Hds').
    + cbn [rev]. rewrite <- app_assoc. reflexivity.
    + cbn [rev]. rewrite <- app_assoc. cbn. intros E.
      apply app_eq_nil in E as [_ E]. discriminate.
    + exact Ht.
Qed.

(** Two names that end in accepted tails and agree as texts have the
    same tail. *)
Lemma tails_agree (a b tail tail' : str) :
  tail_of_name tail -> tail_of_name tail' ->
  a ++ tail = b ++ tail' -> a = b /\ tail = tail'.
Proof.
  intros [-> | ->] [-> | ->] E.
  - apply app_inv_tail in E. split; [exact E | reflexivity].
  - exfalso. apply (f_equal (@rev _)) in E.
    rewrite !rev_app_distr in E. cbn in E. discriminate.
  - exfalso. apply (f_equal (@rev _)) in E.
    rewrite !rev_app_distr in E. cbn in E. discriminate.
  - apply app_inv_tail in E. split; [exact E | reflexivity].
Qed.

(** Inside [prefix_ds<tail>] the pattern matches at the underscore before
    the digits and nowhere before. *)
Lemma match_here_early (c : codepoint) (p ds tail : str) :
  all_digits unicode_decimal ds -> tail_of_name tail ->
  match_here unicode_decimal (c :: p ++ [UNDERSCORE] ++ ds ++ tail) = None.
Proof.
  intros Hds Htail.
  destruct (match_here unicode_decimal _) as [g|] eqn:Hm; [|reflexivity].
  exfalso. unfold match_here in Hm.
  destruct (N.eqb c UNDERSCORE); [|discriminate].
  apply match_digits_sound in Hm as (ds' & rest & E & Hds' & _ & _ & Ht).
  apply match_tail_spec in Ht.
  replace (p ++ [UNDERSCORE] ++ ds ++ tail)
    with ((p ++ [UNDERSCORE] ++ ds) ++ tail) in E
    by (rewrite <- !app_assoc; reflexivity).
  apply tails_agree in E as [E _]; [|assumption|assumption].
  assert (Hin : In UNDERSCORE ds').
  { rewrite <- E. apply in_or_app. right. left. reflexivity. }
  unfold all_digits in Hds'. rewrite Forall_forall in Hds'.
  apply Hds' in Hin. rewrite underscore_no_digit in Hin. discriminate.
Qed.

Lemma re_search_form (prefix ds tail : str) :
  ds <> [] -> all_digits unicode_decimal ds -> tail_of_name tail ->
  re_search unicode_decimal (prefix ++ [UNDERSCORE] ++ ds ++ tail) = Some ds.
Proof.
  intros Hne Hds Htail. induction prefix as [|c p IH].
  - cbn [app re_search match_here]. rewrite N.eqb_refl.
    rewrite match_digits_complete; try assumption.
    + reflexivity.
    + apply match_tail_spec. exact Htail.
  - change ((c :: p) ++ [UNDERSCORE] ++ ds ++ tail)
      with (c :: p ++ [UNDERSCORE] ++ ds ++ tail).
    cbn [re_search]. rewrite match_here_early by assumption. exact IH.
Qed.

Lemma re_search_sound (s g : str) :
  re_search unicode_decimal s = Some g ->
  exists prefix tail,
    s = prefix ++ [UNDERSCORE] ++ g ++ tail /\
    g <> [] /\ all_digits unicode_decimal g /\ tail_of_name tail.
Proof.
  assert (Hhere : forall s0,
             match_here unicode_decimal s0 = Some g ->
             exists prefix tail,
               s0 = prefix ++ [UNDERSCORE] ++ g ++ tail /\
               g <> [] /\ all_digits unicode_decimal g /\ tail_of_name tail).
  { intros [|c s0]; cbn [match_here]; [discriminate|].
    destruct (N.eqb c UNDERSCORE) eqn:Hc; [|discriminate].
    apply N.eqb_eq in Hc. subst c. intros Hm.
    apply match_digits_sound in Hm as (ds & rest & -> & Hds & -> & Hne & Ht).
    exists [], rest. cbn [rev app] in *. repeat split; try assumption.
    apply match_tail_spec. exact Ht. }
  induction s as [|c s IH]; cbn [re_search].
  - destruct (match_here unicode_decimal []) eqn:Hm; [|discriminate].
    intros [= ->]. apply Hhere. exact Hm.
  - destruct (match_here unicode_decimal (c :: s)) eqn:Hm.
    + intros [= ->]. apply Hhere. exact Hm.
    + intros H. apply IH in H as (prefix & tail & -> & H).
      exists (c :: prefix), tail. split; [reflexivity | exact H].
Qed.

Lemma prepare_batch_skips (consignas_df : DataFrame) (f : file)
    (before after : list file) :
  extract_id_from_filename unicode_decimal (name f) = None ->
  prepare_batch unicode_decimal consignas_df (before ++ f :: after)
    = prepare_batch unicode_decimal consignas_df (before ++ after).
Proof.
  intros Hf. induction before as [|b before IH]; cbn [app prepare_batch].
  - rewrite Hf. reflexivity.
  - rewrite IH. reflexivity.
Qed.

End IdentifierFacts.

(** The identifier ['11710001'], whose third character is ['7']. *)
Lemma extract_curso_from_id_cases_witness :
  (forall c d, ascii_decimal c = Some d -> (d < 10)%N) /\
  nth_error (lit "11710001") 2 = Some 55%N /\
  ascii_decimal 55%N = Some 7%N /\
  extract_curso_from_id ascii_decimal (lit "11710001")
    = lit "7" ++ [232%N] ++ lit " ESO".
Proof.
  split; [exact ascii_decimal_range|].
  split; [reflexivity|]. split; [reflexivity|].
  destruct (extract_curso_from_id_cases ascii_decimal ascii_decimal_range
              (lit "11710001")) as [_ H].
  specialize (H 55%N eq_refl). cbn in H. destruct H as [_ H].
  apply H. right. lia.
Defined.

(** C2 as stated fails: the digit 7 is outside the table and the result
    is ['7è ESO'], not the default ['4t ESO']. *)
Lemma extract_curso_from_id_counterexample :
  extract_curso_from_id ascii_decimal (lit "11710001")
    = lit "7" ++ [232%N] ++ lit " ESO" /\
  extract_curso_from_id ascii_decimal (lit "11710001") <> lit "4t ESO".
Proof. split; [reflexivity | discriminate]. Qed.

(** ** The result stream *)

Section StreamFacts.

Variable json_loads : str -> option json.

Lemma process_buffer_eq (buffer : str) (st : state) :
  process_buffer json_loads buffer st =
    match split_blank buffer with
    | None => Ok (buffer, st)
    | Some (event_text, rest) =>
        match dispatch (parse_event json_loads event_text) st with
        | Raise e => Raise e
        | Ok (Break, st') => Ok (rest, st')
        | Ok (Next, st') => process_buffer json_loads rest st'
        end
    end.
Proof.
  funelim (process_buffer json_loads buffer st).
  - rewrite e. reflexivity.
  - rewrite Hsplit, Heq. reflexivity.
  - rewrite Hsplit, Heq. reflexivity.
  - rewrite Hsplit, Heq. reflexivity.
Qed.

Lemma dispatch_emitted (ed : event_data) (st st' : state) (fl : flow) :
  dispatch ed st = Ok (fl, st') ->
  results st' = results st ++ emitted ed /\
  handled st' = handled st ++ [ed].
Proof.
  unfold dispatch, emitted.
  destruct (event_is ed "batch_complete").
  - assert (Hnil : forall v : json,
               Ok (Next, {| results := results st ++ [];
                            printed := printed st;
                            handled := handled st ++ [ed] |})
                 = Ok (fl, st') ->
               results st' = results st ++ [] /\
               handled st' = handled st ++ [ed])
      by (intros _ [= <- <-]; split; reflexivity).
    destruct (data ed) as [[| | | | | |entries]|];
      cbn [bind dict_get]; try discriminate.
    + destruct (assoc (lit "results") entries) as [[| | | | |items|keys]|];
        cbn [bind iterate]; try discriminate;
        (destruct (truthy _);
         [ repeat (match goal with
                   | |- context [dict_get ?d ?k ?v] =>
                       destruct (dict_get d k v); cbn [bind];
                       try discriminate
                   | |- context [format_1f ?v] =>
                       destruct (format_1f v); cbn [bind]; try discriminate
                   end)
         | ];
         intros [= <- <-]; split; reflexivity).
    + cbn [assoc bind iterate truthy]. apply Hnil. exact JNull.
  - destruct (event_is ed "complete").
    + intros [= <- <-]. cbn. rewrite app_nil_r. split; reflexivity.
    + destruct (event_is ed "error").
      * destruct (dict_get _ _ _); cbn [bind]; [|discriminate].
        intros [= <- <-]. cbn. rewrite app_nil_r. split; reflexivity.
      * intros [= <- <-]. cbn. rewrite app_nil_r. split; reflexivity.
Qed.

Lemma dispatch_keeps_invariant (ed : event_data) (st st' : state) (fl : flow) :
  dispatch ed st = Ok (fl, st') ->
  results_are_emitted st -> results_are_emitted st'.
Proof.
  intros H Hinv. apply dispatch_emitted in H as [Hr Hh].
  unfold results_are_emitted in *.
  rewrite Hr, Hh, Hinv, flat_map_app. cbn. rewrite app_nil_r. reflexivity.
Qed.

Lemma process_buffer_keeps_invariant (buffer : str) (st : state) :
  forall rest st',
    process_buffer json_loads buffer st = Ok (rest, st') ->
    results_are_emitted st -> results_are_emitted st'.
Proof.
  funelim (process_buffer json_loads buffer st); intros rest0 st0.
  - intros [= <- <-]. tauto.
  - intros Hrec Hinv. eapply H; [exact Hrec|].
    eapply dispatch_keeps_invariant; eassumption.
  - intros [= <- <-] Hinv. eapply dispatch_keeps_invariant; eassumption.
  - discriminate.
Qed.

Lemma read_chunks_keeps_invariant (chunks : list str) :
  forall buffer st rest st',
    read_chunks json_loads chunks buffer st = Ok (rest, st') ->
    results_are_emitted st -> results_are_emitted st'.
Proof.
  induction chunks as [|chunk chunks IH]; intros buffer st rest st';
    cbn [read_chunks].
  - intros [= <- <-]. tauto.
  - destruct chunk as [|c chunk]; [apply IH|].
    destruct (process_buffer json_loads (buffer ++ c :: chunk) st)
      as [[b1 st1]|] eqn:Hp; cbn; [|discriminate].
    intros Hrec Hinv. eapply IH; [exact Hrec|].
    eapply process_buffer_keeps_invariant; eassumption.
Qed.

(** C8.  When the stream fails after some chunks, [stream_results]
    returns the results accumulated from those chunks, the ones it would
    return had the stream ended there: exactly the entries of the
    [batch_complete] events handled before the failure.  When the request
    itself fails there are none. *)
Theorem stream_failure_keeps_results (chunks : list str) (st : state) :
  stream_results_state json_loads (Streaming chunks EndOfStream) = Ok st ->
  stream_results json_loads (Streaming chunks TransportFailure)
    = Ok (results st) /\
  results st = flat_map emitted (handled st) /\
  stream_results json_loads RequestFailed = Ok [].
Proof.
  unfold stream_results, stream_results_state.
  destruct (read_chunks json_loads chunks [] initial) as [[b st1]|] eqn:Hr;
    cbn; [|discriminate].
  intros [= <-]. repeat split.
  eapply read_chunks_keeps_invariant; [exact Hr|]. reflexivity.
Qed.

(** *** A frame whose payload does not decode *)

Lemma event_is_one (ed : event_data) (a b : string) :
  event_is ed a = true -> event_is ed b = true -> lit a = lit b.
Proof.
  unfold event_is. destruct (event ed) as [e|]; [|discriminate].
  rewrite !str_eqb_eq. congruence.
Qed.

Lemma parse_line_no_data (ed : event_data) (line : str) :
  data ed = None ->
  (startswith line (lit "data:") = true ->
   json_loads (strip (skipn 5 line)) = None) ->
  data (parse_line json_loads ed line) = None.
Proof.
  intros Hd Hline. unfold parse_line.
  destruct (startswith line (lit "event:")); [exact Hd|].
  destruct (startswith line (lit "data:")); [|exact Hd].
  rewrite Hline by reflexivity. exact Hd.
Qed.

Lemma parse_lines_no_data (lines : list str) :
  forall ed,
    data ed = None ->
    (forall line, In line lines ->
       startswith line (lit "data:") = true ->
       json_loads (strip (skipn 5 line)) = None) ->
    data (fold_left (parse_line json_loads) lines ed) = None.
Proof.
  induction lines as [|line lines IH]; intros ed Hd Hlines; cbn [fold_left].
  - exact Hd.
  - apply IH.
    + apply parse_line_no_data; [exact Hd|]. apply Hlines. left. reflexivity.
    + intros l Hl. apply Hlines. right. exact Hl.
Qed.

(** The dispatch on an event without payload. *)
Lemma dispatch_no_data (ed : event_data) (st : state) :
  data ed = None ->
  dispatch ed st =
    Ok (if is_terminal ed then Break else Next,
        {| results := results st;
           printed := printed st ++
             (if event_is ed "complete" then [JobCompleted]
              else if event_is ed "error"
                   then [ErrorMessage (JStr (lit "Unknown error"))]
                   else []);
           handled := handled st ++ [ed] |}).
Proof.
  intros Hd. unfold dispatch, is_terminal. rewrite Hd.
  destruct (event_is ed "batch_complete") eqn:Hb.
  - destruct (event_is ed "complete") eqn:Hc.
    { pose proof (event_is_one _ _ _ Hb Hc). discriminate. }
    destruct (event_is ed "error") eqn:He.
    { pose proof (event_is_one _ _ _ Hb He). discriminate. }
    cbn. rewrite !app_nil_r. reflexivity.
  - destruct (event_is ed "complete") eqn:Hc; [reflexivity|].
    destruct (event_is ed "error") eqn:He; cbn.
    + reflexivity.
    + rewrite app_nil_r. reflexivity.
Qed.

(** C4, as the code has it.  A data line that does not decode is skipped
    and the rest of its frame is still handled.  When no data line of the
    frame decodes, the event has no payload and its dispatch never raises
    and adds no result; for the event types [complete] and [error] it
    still prints its message and ends the job, and for every other event
    type it prints nothing and the loop goes on with the next frame. *)
Theorem corrupt_frame_handling (event_text : str) (st : state) :
  (forall line,
     In line (split_lines (strip event_text)) ->
     startswith line (lit "data:") = true ->
     json_loads (strip (skipn 5 line)) = None) ->
  let ed := parse_event json_loads event_text in
  data ed = None /\
  exists st',
    dispatch ed st = Ok (if is_terminal ed then Break else Next, st') /\
    results st' = results st /\
    printed st' = printed st ++
      (if event_is ed "complete" then [JobCompleted]
       else if event_is ed "error"
            then [ErrorMessage (JStr (lit "Unknown error"))]
            else []) /\
    (is_terminal ed = false ->
     printed st' = printed st /\
     forall buffer rest,
       split_blank buffer = Some (event_text, rest) ->
       process_buffer json_loads buffer st
         = process_buffer json_loads rest st').
Proof.
  intros Hlines ed.
  assert (Hd : data ed = None).
  { unfold ed, parse_event. apply parse_lines_no_data; [reflexivity|].
    exact Hlines. }
  split; [exact Hd|].
  eexists. split; [apply dispatch_no_data; exact Hd|].
  cbn [results printed]. repeat split.
  - unfold is_terminal in H. apply orb_false_iff in H as [-> ->].
    apply app_nil_r.
  - intros buffer rest Hs. rewrite process_buffer_eq, Hs.
    fold ed. rewrite dispatch_no_data by exact Hd. rewrite H. reflexivity.
Qed.

(** *** Chunk boundaries *)

Lemma split_blank_cons (c : codepoint) (s : str) :
  split_blank (c :: s) =
    if N.eqb c LF && match s with d :: _ => N.eqb d LF | [] => false end
    then Some ([], tl s)
    else match split_blank s with
         | Some (a, b) => Some (c :: a, b)
         | None => None
         end.
Proof. reflexivity. Qed.

Lemma split_blank_app (a b x r : str) :
  split_blank a = Some (x, r) -> split_blank (a ++ b) = Some (x, r ++ b).
Proof.
  revert x r. induction a as [|c a IH]; intros x r; [discriminate|].
  change ((c :: a) ++ b) with (c :: (a ++ b)).
  rewrite !split_blank_cons.
  destruct a as [|d a].
  - rewrite andb_false_r. cbn. discriminate.
  - change ((d :: a) ++ b) with (d :: (a ++ b)).
    destruct (N.eqb c LF && N.eqb d LF).
    + intros [= <- <-]. reflexivity.
    + change (d :: (a ++ b)) with ((d :: a) ++ b).
      destruct (split_blank (d :: a)) as [[x' r']|]; [|discriminate].
      intros [= <- <-]. rewrite (IH x' r' eq_refl). reflexivity.
Qed.

Lemma dispatch_break (ed : event_data) (st st' : state) :
  dispatch ed st = Ok (Break, st') -> is_terminal ed = true.
Proof.
  unfold dispatch, is_terminal.
  destruct (event_is ed "batch_complete").
  - repeat (match goal with
            | |- context [dict_get ?d ?k ?v] =>
                destruct (dict_get d k v); cbn [bind]; try discriminate
            | |- context [iterate ?v] =>
                destruct (iterate v); cbn [bind]; try discriminate
            | |- context [format_1f ?v] =>
                destruct (format_1f v); cbn [bind]; try discriminate
            | |- context [truthy ?v] => destruct (truthy v)
            end); discriminate.
  - destruct (event_is ed "complete"); [reflexivity|].
    destruct (event_is ed "error"); [reflexivity | discriminate].
Qed.

(** When the frames of [a ++ b] are handled without meeting a terminal
    event, handling the frames of [a] first and those of what remains
    with [b] afterwards gives the same. *)
Lemma process_buffer_app (a : str) (st : state) :
  forall b r st',
    process_buffer json_loads (a ++ b) st = Ok (r, st') ->
    Forall (fun ed => is_terminal ed = false) (handled st') ->
    exists r1 st1,
      process_buffer json_loads a st = Ok (r1, st1) /\
      process_buffer json_loads (r1 ++ b) st1 = Ok (r, st').
Proof.
  funelim (process_buffer json_loads a st); intros b r st0 Hrun Hnt.
  - exists buffer, st. split; [reflexivity | exact Hrun].
  - rewrite process_buffer_eq,
      (@split_blank_app buffer b event_text rest Hsplit), Heq in Hrun.
    apply (H b r st0 Hrun Hnt).
  - exfalso.
    rewrite process_buffer_eq,
      (@split_blank_app buffer b event_text rest Hsplit), Heq in Hrun.
    injection Hrun as _ <-.
    pose proof (@dispatch_break _ _ _ Heq) as Hterm.
    apply dispatch_emitted in Heq as [_ Hh]. rewrite Hh in Hnt.
    apply Forall_app in Hnt as [_ Hnt]. inversion Hnt; congruence.
  - rewrite process_buffer_eq,
      (@split_blank_app buffer b event_text rest Hsplit), Heq in Hrun.
    discriminate.
Qed.

(** Frame parsing does not depend on where a payload is cut in two when
    the payload, read whole, holds no terminal event. *)
Theorem chunk_split_without_terminal (chunk1 chunk2 : str) (st : state) :
  stream_results_state json_loads
    (Streaming [chunk1 ++ chunk2] EndOfStream) = Ok st ->
  Forall (fun ed => is_terminal ed = false) (handled st) ->
  stream_results_state json_loads
    (Streaming [chunk1; chunk2] EndOfStream) = Ok st.
Proof.
  unfold stream_results_state. cbn [read_chunks].
  destruct chunk1 as [|c chunk1]; [intros H _; exact H|].
  destruct chunk2 as [|d chunk2].
  { rewrite app_nil_r. intros H _. exact H. }
  cbn [app].
  destruct (process_buffer json_loads (c :: chunk1 ++ d :: chunk2) initial)
    as [[r st']|] eqn:Hrun; cbn [bind fst snd]; [|discriminate].
  intros [= <-] Hnt.
  destruct (@process_buffer_app (c :: chunk1) initial (d :: chunk2) r st'
              Hrun Hnt) as (r1 & st1 & H1 & H2).
  rewrite H1. cbn [bind fst snd]. rewrite H2. reflexivity.
Qed.

End StreamFacts.

(** *** Examples of streams *)

(** C1 fails on the code.  The service sends a [complete] frame in one
    chunk and a [batch_complete] frame in the next: the second frame is
    handled after the terminal one and its result is returned. *)
Theorem stream_results_after_complete :
  stream_results_state sample_loads
    (Streaming [complete_frame; batch_frame] EndOfStream)
  = Ok {| results := [sample_result];
          printed := [JobCompleted];
          handled := [complete_event; batch_event] |}.
Proof. vm_compute. reflexivity. Qed.

(** C5 fails on the code.  The same payload, whole and split at offset 30
    (inside its second frame), is parsed into different events. *)
Theorem split_payload_changes_events :
  let payload := complete_frame ++ batch_frame in
  stream_results_state sample_loads (Streaming [payload] EndOfStream)
  = Ok {| results := [];
          printed := [JobCompleted];
          handled := [complete_event] |} /\
  stream_results_state sample_loads
    (Streaming [firstn 30 payload; skipn 30 payload] EndOfStream)
  = Ok {| results := [sample_result];
          printed := [JobCompleted];
          handled := [complete_event; batch_event] |}.
Proof. split; vm_compute; reflexivity. Qed.

(** C4 as stated fails: the frame whose payload does not decode is not
    dropped.  It is handled as a [complete] event: the message is printed
    and the frame that follows in the chunk is not read, whereas without
    the corrupt frame that frame yields a result. *)
Lemma corrupt_frame_counterexample :
  sample_loads (lit "{bad") = None /\
  stream_results_state sample_loads
    (Streaming [corrupt_complete_frame ++ batch_frame] EndOfStream)
  = Ok {| results := [];
          printed := [JobCompleted];
          handled := [{| event := Some (lit "complete"); data := None |}] |} /\
  stream_results_state sample_loads (Streaming [batch_frame] EndOfStream)
  = Ok {| results := [sample_result];
          printed := [];
          handled := [batch_event] |}.
Proof. repeat split; vm_compute; reflexivity. Qed.

(** A [batch_complete] frame whose payload does not decode. *)
Lemma corrupt_frame_handling_witness :
  let event_text := lit "event: batch_complete" ++ [LF] ++ lit "data: {bad" in
  (forall line,
     In line (split_lines (strip event_text)) ->
     startswith line (lit "data:") = true ->
     sample_loads (strip (skipn 5 line)) = None) /\
  exists st',
    dispatch (parse_event sample_loads event_text) initial = Ok (Next, st') /\
    results st' = [] /\ printed st' = [].
Proof.
  intros event_text.
  assert (H : forall line,
             In line (split_lines (strip event_text)) ->
             startswith line (lit "data:") = true ->
             sample_loads (strip (skipn 5 line)) = None).
  { intros line [<- | [<- | []]] _; vm_compute; reflexivity. }
  split; [exact H|].
  destruct (corrupt_frame_handling sample_loads event_text initial H)
    as (_ & st' & Hd & Hr & Hp & _).
  exists st'. repeat split; assumption.
Defined.

(** One [batch_complete] frame, then the connection breaks. *)
Lemma stream_failure_keeps_results_witness :
  stream_results_state sample_loads (Streaming [batch_frame] EndOfStream)
    = Ok {| results := [sample_result]; printed := [];
            handled := [batch_event] |} /\
  stream_results sample_loads (Streaming [batch_frame] TransportFailure)
    = Ok [sample_result].
Proof.
  assert (H : stream_results_state sample_loads
                (Streaming [batch_frame] EndOfStream)
              = Ok {| results := [sample_result]; printed := [];
                      handled := [batch_event] |})
    by (vm_compute; reflexivity).
  split; [exact H|].
  apply (stream_failure_keeps_results sample_loads [batch_frame] H).
Defined.

(** ** The prompt table *)

Lemma rename_absent (old new : str) (df : DataFrame) :
  has_column old df = false -> rename old new df = df.
Proof.
  unfold has_column, rename. destruct df as [cols rws]. cbn. intros H.
  f_equal. induction cols as [|c cols IH]; [reflexivity|].
  cbn in H. apply orb_false_iff in H as [Hc H]. cbn.
  rewrite (IH H).
  replace (str_eqb c old) with false; [reflexivity|].
  symmetry. apply str_eqb_neq. apply str_eqb_neq in Hc. congruence.
Qed.

Lemma load_columns (csv : DataFrame) :
  columns (load_consignas_csv (Some csv)) = map canonical (columns csv) /\
  rows (load_consignas_csv (Some csv)) = rows csv.
Proof.
  unfold load_consignas_csv.
  assert (E1 : (if has_column (lit "File ID") csv
                then rename (lit "File ID") (lit "FileID") csv else csv)
               = rename (lit "File ID") (lit "FileID") csv).
  { destruct (has_column (lit "File ID") csv) eqn:H; [reflexivity|].
    symmetry. apply rename_absent. exact H. }
  rewrite E1.
  set (df1 := rename (lit "File ID") (lit "FileID") csv).
  assert (E2 : (if has_column (lit "TEXTpost2") df1
                then rename (lit "TEXTpost2") (lit "Consigna") df1 else df1)
               = rename (lit "TEXTpost2") (lit "Consigna") df1).
  { destruct (has_column (lit "TEXTpost2") df1) eqn:H; [reflexivity|].
    symmetry. apply rename_absent. exact H. }
  rewrite E2. unfold df1, rename. cbn [columns rows]. split; [|reflexivity].
  rewrite map_map. apply map_ext. intros c. unfold canonical.
  destruct (str_eqb c (lit "File ID")); reflexivity.
Qed.

Lemma canonical_is_ID (c : str) : canonical c = lit "ID" -> c = lit "ID".
Proof.
  unfold canonical.
  destruct (str_eqb c (lit "File ID")); [discriminate|].
  destruct (str_eqb c (lit "TEXTpost2")); [discriminate|]. tauto.
Qed.

Lemma canonical_is_Consigna (c : str) :
  canonical c = lit "Consigna" -> c = lit "TEXTpost2" \/ c = lit "Consigna".
Proof.
  unfold canonical.
  destruct (str_eqb c (lit "File ID")); [discriminate|].
  destruct (str_eqb c (lit "TEXTpost2")) eqn:H.
  - apply str_eqb_eq in H. tauto.
  - tauto.
Qed.

Lemma column_index_first (label : str) (cols : list str) :
  forall i,
    nth_error cols i = Some label ->
    (forall k, (k < i)%nat -> nth_error cols k <> Some label) ->
    column_index label cols = Some i.
Proof.
  induction cols as [|c cols IH]; intros [|i]; cbn; try discriminate.
  - intros [= ->] _. rewrite str_eqb_refl. reflexivity.
  - intros Hi Hfirst.
    destruct (str_eqb c label) eqn:Hc.
    + apply str_eqb_eq in Hc. subst c.
      exfalso. apply (Hfirst 0%nat); [lia | reflexivity].
    + rewrite (IH i Hi); [reflexivity|].
      intros k Hk. apply (Hfirst (S k)). lia.
Qed.

Lemma column_index_absent (label : str) (cols : list str) :
  ~ In label cols -> column_index label cols = None.
Proof.
  induction cols as [|c cols IH]; [reflexivity|]. cbn. intros H.
  destruct (str_eqb c label) eqn:Hc.
  - apply str_eqb_eq in Hc. exfalso. apply H. left. exact Hc.
  - rewrite IH; [reflexivity|]. intros Hin. apply H. right. exact Hin.
Qed.

(** Where a column of a frame with distinct labels lands after loading. *)
Lemma column_index_canonical (cols : list str) (i : nat) (c : str) :
  NoDup cols ->
  nth_error cols i = Some c ->
  (forall c', In c' cols -> canonical c' = canonical c -> c' = c) ->
  column_index (canonical c) (map canonical cols) = Some i.
Proof.
  intros Hnd Hi Hinj. apply column_index_first.
  - rewrite nth_error_map, Hi. reflexivity.
  - intros k Hk. rewrite nth_error_map.
    destruct (nth_error cols k) as [c'|] eqn:Hc'; [|discriminate].
    cbn. intros [= E].
    apply Hinj in E; [|eapply nth_error_In; exact Hc']. subst c'.
    assert (k = i); [|lia].
    apply (proj1 (NoDup_nth_error cols) Hnd).
    + apply nth_error_Some. congruence.
    + congruence.
Qed.

(** C3, as the code has it.  Loading renames a column ['File ID'] to
    ['FileID'] and a column ['TEXTpost2'] to ['Consigna'] and changes
    nothing else.  The lookup does not read the column ['FileID']: it
    compares the identifier with the cells of the column ['ID'], as text.
    Without a column ['ID'] it raises [KeyError]; with one, and with a
    prompt column under either of its two names, it returns the prompt of
    the first row whose ['ID'] is the identifier. *)
Theorem lookup_after_load (csv : DataFrame) (text_id : str) :
  (columns (load_consignas_csv (Some csv)) = map canonical (columns csv) /\
   rows (load_consignas_csv (Some csv)) = rows csv) /\
  (~ In (lit "ID") (columns csv) ->
   lookup_consigna (load_consignas_csv (Some csv)) text_id
     = Raise (KeyError (lit "ID"))) /\
  (forall i j prompt_label before row after,
     NoDup (columns csv) ->
     nth_error (columns csv) i = Some (lit "ID") ->
     nth_error (columns csv) j = Some prompt_label ->
     (prompt_label = lit "TEXTpost2" /\ ~ In (lit "Consigna") (columns csv)) \/
     (prompt_label = lit "Consigna" /\ ~ In (lit "TEXTpost2") (columns csv)) ->
     rows csv = before ++ row :: after ->
     astype_str (nth i row NaN) = text_id ->
     Forall (fun r => astype_str (nth i r NaN) <> text_id) before ->
     lookup_consigna (load_consignas_csv (Some csv)) text_id
       = Ok (nth j row NaN)).
Proof.
  destruct (load_columns csv) as [Hcols Hrows].
  split; [split; assumption|]. split.
  - intros Hno. unfold lookup_consigna, rows_with_id. rewrite Hcols.
    rewrite column_index_absent; [reflexivity|].
    intros Hin. apply in_map_iff in Hin as (c & Hc & Hin).
    apply canonical_is_ID in Hc. subst c. contradiction.
  - intros i j prompt_label before row after Hnd Hi Hj Hprompt Hr Hrow Hbefore.
    unfold lookup_consigna, rows_with_id. rewrite Hcols, Hrows.
    change (lit "ID") with (canonical (lit "ID")).
    rewrite (@column_index_canonical (columns csv) i (lit "ID") Hnd Hi).
    2:{ intros c' _ E. apply canonical_is_ID. exact E. }
    cbn [bind]. rewrite Hr, filter_app. cbn [filter].
    replace (filter _ before) with (@nil (list cell)).
    2:{ symmetry. clear Hr. induction Hbefore as [|r rs Hne _ IH];
          [reflexivity|].
        cbn. apply str_eqb_neq in Hne. rewrite Hne. exact IH. }
    rewrite Hrow, str_eqb_refl. cbn [app].
    assert (Ec : canonical prompt_label = lit "Consigna")
      by (destruct Hprompt as [[-> _] | [-> _]]; reflexivity).
    rewrite <- Ec.
    rewrite (@column_index_canonical (columns csv) j prompt_label Hnd Hj);
      [reflexivity|].
    intros c' Hin E. rewrite Ec in E.
    apply canonical_is_Consigna in E.
    destruct Hprompt as [[-> Hno] | [-> Hno]], E as [-> | ->];
      try reflexivity; contradiction.
Qed.

Lemma lookup_after_load_witness :
  NoDup (columns sample_table) /\
  lookup_consigna (load_consignas_csv (Some sample_table)) (lit "11410001")
    = Ok (CStr (lit "Describe X")).
Proof.
  assert (Hnd : NoDup (columns sample_table)).
  { repeat constructor; cbn; intuition discriminate. }
  split; [exact Hnd|].
  destruct (lookup_after_load sample_table (lit "11410001")) as (_ & _ & H).
  apply (H 0%nat 2%nat (lit "TEXTpost2") []
           [CInt 11410001; CStr (lit "POS1_11410001.txt");
            CStr (lit "Describe X")] []).
  - exact Hnd.
  - reflexivity.
  - reflexivity.
  - left. split; [reflexivity|]. cbn. intuition discriminate.
  - reflexivity.
  - reflexivity.
  - constructor.
Defined.

(** C3 as stated fails: a table whose identifier column is ['File ID']
    and whose prompt column is ['TEXTpost2'] is normalized, and the lookup
    of an identifier that a row carries raises [KeyError]. *)
Lemma lookup_after_load_counterexample :
  let csv := {| columns := [lit "File ID"; lit "TEXTpost2"];
                rows := [[CInt 11410001; CStr (lit "Describe X")]] |} in
  columns (load_consignas_csv (Some csv)) = [lit "FileID"; lit "Consigna"] /\
  lookup_consigna (load_consignas_csv (Some csv)) (lit "11410001")
    = Raise (KeyError (lit "ID")).
Proof. split; reflexivity. Qed.

(** ** Building a batch *)

Lemma lookup_consigna_total (consignas_df : DataFrame) (text_id : str)
    (i j : nat) :
  column_index (lit "ID") (columns consignas_df) = Some i ->
  column_index (lit "Consigna") (columns consignas_df) = Some j ->
  exists c, lookup_consigna consignas_df text_id = Ok c.
Proof.
  intros Hi Hj. unfold lookup_consigna, rows_with_id. rewrite Hi, Hj.
  cbn [bind]. destruct (filter _ _); eexists; reflexivity.
Qed.

Lemma lookup_consigna_missing (consignas_df : DataFrame) (text_id : str)
    (i : nat) :
  column_index (lit "ID") (columns consignas_df) = Some i ->
  Forall (fun row => astype_str (nth i row NaN) <> text_id)
         (rows consignas_df) ->
  lookup_consigna consignas_df text_id = Ok (CStr (lit "N/A")).
Proof.
  intros Hi Hrows. unfold lookup_consigna, rows_with_id. rewrite Hi.
  cbn [bind].
  replace (filter _ (rows consignas_df)) with (@nil (list cell));
    [reflexivity|].
  symmetry. induction Hrows as [|r rs Hne _ IH]; [reflexivity|].
  cbn. apply str_eqb_neq in Hne. rewrite Hne. exact IH.
Qed.

Section BatchFacts.

Variable unicode_decimal : codepoint -> option N.
Variable json_loads : str -> option json.

Lemma prepare_batch_total (consignas_df : DataFrame) (i j : nat)
    (batch_files : list file) :
  column_index (lit "ID") (columns consignas_df) = Some i ->
  column_index (lit "Consigna") (columns consignas_df) = Some j ->
  exists prepared,
    prepare_batch unicode_decimal consignas_df batch_files = Ok prepared.
Proof.
  intros Hi Hj. induction batch_files as [|f fs [prepared IH]];
    cbn [prepare_batch].
  - eexists. reflexivity.
  - destruct (extract_id_from_filename unicode_decimal (name f))
      as [[|c text_id]|]; try (eexists; exact IH).
    destruct (read_text_file f); [eexists; exact IH|].
    destruct (lookup_consigna_total consignas_df (c :: text_id) Hi Hj)
      as [cell Hc].
    rewrite Hc, IH. cbn [bind]. eexists. reflexivity.
Qed.

Lemma prepare_batch_missing_prompt (consignas_df : DataFrame) (i : nat)
    (batch_files : list file) (f : file) (text_id : str)
    (batch_items : list Item.t) (file_metadata : list Meta.t) :
  column_index (lit "ID") (columns consignas_df) = Some i ->
  In f batch_files ->
  extract_id_from_filename unicode_decimal (name f) = Some text_id ->
  read_text_file f <> [] ->
  Forall (fun row => astype_str (nth i row NaN) <> text_id)
         (rows consignas_df) ->
  prepare_batch unicode_decimal consignas_df batch_files
    = Ok (batch_items, file_metadata) ->
  In {| Item.id_alumno := text_id;
        Item.curso := extract_curso_from_id unicode_decimal text_id;
        Item.consigna := CStr (lit "N/A");
        Item.respuesta := read_text_file f |} batch_items.
Proof.
  intros Hi Hin Hid Htext Hrows.
  assert (Hne : text_id <> []).
  { unfold extract_id_from_filename in Hid.
    apply re_search_sound in Hid as (_ & _ & _ & Hne & _). exact Hne. }
  revert batch_items file_metadata.
  induction batch_files as [|g fs IH]; [contradiction|].
  intros batch_items file_metadata. cbn [prepare_batch].
  destruct Hin as [-> | Hin].
  - rewrite Hid. destruct text_id as [|c text_id]; [contradiction|].
    destruct (read_text_file f) as [|r respuesta] eqn:Hr; [contradiction|].
    rewrite (lookup_consigna_missing consignas_df Hi Hrows).
    cbn [bind].
    destruct (prepare_batch unicode_decimal consignas_df fs) as [more|];
      cbn [bind]; [|discriminate].
    intros [= <- <-]. left. reflexivity.
  - specialize (IH Hin).
    destruct (extract_id_from_filename unicode_decimal (name g))
      as [[|c' id']|]; try apply IH.
    destruct (read_text_file g); [apply IH|].
    destruct (lookup_consigna consignas_df (c' :: id'));
      cbn [bind]; [|discriminate].
    destruct (prepare_batch unicode_decimal consignas_df fs)
      as [[items meta]|]; cbn [bind]; [|discriminate].
    intros [= <- <-]. right. apply (IH items meta). reflexivity.
Qed.


End BatchFacts.

(** ** Matching results with metadata *)

Lemma str_eq_json_spec (s : str) (v : json) :
  str_eq_json s v = true <-> v = JStr s.
Proof.
  destruct v; cbn; try (split; [discriminate | discriminate]).
  rewrite str_eqb_eq. split; congruence.
Qed.

Lemma find_metadata_first (file_metadata : list Meta.t) (v : json)
    (m : Meta.t) :
  find_metadata file_metadata v = Some m ->
  exists before after,
    file_metadata = before ++ m :: after /\
    v = JStr (Meta.id m) /\
    Forall (fun m' => Meta.id m' <> Meta.id m) before.
Proof.
  unfold find_metadata.
  induction file_metadata as [|m0 ms IH]; cbn [find]; [discriminate|].
  destruct (str_eq_json (Meta.id m0) v) eqn:H0.
  - intros [= ->]. apply str_eq_json_spec in H0.
    exists [], ms. repeat split; [exact H0 | constructor].
  - intros H. destruct (IH H) as (before & after & -> & Hv & Hb).
    exists (m0 :: before), after. repeat split; [exact Hv|].
    constructor; [|exact Hb].
    intros E. rewrite <- E in Hv. apply str_eq_json_spec in Hv. congruence.
Qed.

Lemma find_metadata_none (file_metadata : list Meta.t) (v : json)
    (m : Meta.t) :
  find_metadata file_metadata v = None ->
  In m file_metadata -> str_eq_json (Meta.id m) v = false.
Proof.
  unfold find_metadata. intros H Hin.
  apply (find_none _ _ H m Hin).
Qed.

(** C10.  When every streamed entry is a dictionary the matching returns,
    and it does not deduplicate: for an identifier that some batch item
    bears, there are as many rows as streamed entries with that
    identifier; and every row is joined to the first metadata entry, in
    batch order, that bears its identifier. *)
Theorem match_results_keeps_duplicates (folder_name : str)
    (file_metadata : list Meta.t) (results : list json) :
  Forall is_object results ->
  exists rows,
    match_results folder_name file_metadata results = Ok rows /\
    (forall sid,
       (exists m, In m file_metadata /\ Meta.id m = sid) ->
       count_id sid (map Row.id rows) = count_id sid (map id_of results)) /\
    (forall row,
       In row rows ->
       exists sid before m after,
         Row.id row = JStr sid /\
         file_metadata = before ++ m :: after /\
         Meta.id m = sid /\
         Forall (fun m' => Meta.id m' <> sid) before /\
         Row.folder row = folder_name /\
         Row.filename row = Meta.filename m /\
         Row.curso row = Meta.curso m /\
         Row.consigna row = Meta.consigna m).
Proof.
  induction 1
    as [|result results [entries ->] _ (rows & Hrows & Hcount & Hjoin)].
  - exists []. split; [reflexivity|].
    split; [reflexivity | contradiction].
  - cbn [match_results dict_get bind]. rewrite Hrows. cbn [bind].
    set (id_alumno := match assoc (lit "id_alumno") entries with
                      | Some v => v
                      | None => JNull
                      end).
    destruct (find_metadata file_metadata id_alumno) as [m|] eqn:Hfind.
    + eexists. split; [reflexivity|]. split.
      * intros sid Hsid. unfold count_id in *. cbn [map filter id_of Row.id].
        fold id_alumno.
        destruct (str_eq_json sid id_alumno); cbn [length];
          rewrite (Hcount sid Hsid); reflexivity.
      * intros row [<- | Hin]; [|apply Hjoin; exact Hin].
        apply find_metadata_first in Hfind
          as (before & after & -> & Hv & Hb).
        exists (Meta.id m), before, m, after. cbn.
        repeat split; assumption.
    + exists rows. split; [reflexivity|]. split; [|exact Hjoin].
      intros sid Hsid. unfold count_id in *. cbn [map filter id_of].
      fold id_alumno.
      destruct (str_eq_json sid id_alumno) eqn:Hs;
        [|apply Hcount; exact Hsid].
      exfalso. destruct Hsid as (m & Hin & <-).
      rewrite (@find_metadata_none file_metadata id_alumno m Hfind Hin) in Hs.
      discriminate.
Qed.

Lemma match_results_keeps_duplicates_witness :
  Forall is_object [sample_result; sample_result] /\
  exists rows,
    match_results (lit "POS1") sample_metadata [sample_result; sample_result]
      = Ok rows /\
    count_id (lit "11410001") (map Row.id rows) = 2%nat /\
    Forall (fun row => Row.filename row = lit "POS1_11410001_NOR.txt") rows.
Proof.
  assert (Hobj : Forall is_object [sample_result; sample_result]).
  { repeat constructor; eexists; reflexivity. }
  split; [exact Hobj|].
  destruct (match_results_keeps_duplicates (lit "POS1") sample_metadata Hobj)
    as (rows & Hrows & Hcount & _).
  exists rows. split; [exact Hrows|]. split.
  - rewrite Hcount; [reflexivity|].
    eexists. split; [left; reflexivity | reflexivity].
  - vm_compute in Hrows. injection Hrows as <-.
    repeat constructor.
Defined.

(** ** The scenario of the specification

    Folder ["POS1"] with the two files, a prompt for the first only, batch
    size 10, and a service that streams a result for each: two rows, with
    the grades ['4t ESO'] and ['5è ESO'], the second with the prompt
    ["N/A"]. *)
Example process_folder_scenario :
  process_folder ascii_decimal sample_loads (lit "POS1")
    (Some sample_table) sample_files 10 scenario_service
  = Ok [ {| Row.folder := lit "POS1";
            Row.id := JStr (lit "11410001");
            Row.filename := lit "POS1_11410001_NOR.txt";
            Row.curso := lit "4t ESO";
            Row.consigna := CStr (lit "Describe X");
            Row.nota := JInt 7;
            Row.feedback := JNull |};
         {| Row.folder := lit "POS1";
            Row.id := JStr (lit "11510002");
            Row.filename := lit "POS1_11510002_NOR.txt";
            Row.curso := lit "5" ++ [232%N] ++ lit " ESO";
            Row.consigna := CStr (lit "N/A");
            Row.nota := JInt 5;
            Row.feedback := JStr (lit "ok") |} ].
Proof. vm_compute. reflexivity. Qed.

(** * Properties of the folder run and of the reports *)

(** ** The result stream, chunk by chunk *)

Section ChunkFacts.

Variable json_loads : str -> option json.

Lemma dispatch_next (ed : event_data) (st st' : state) :
  dispatch ed st = Ok (Next, st') -> is_terminal ed = false.
Proof.
  unfold dispatch, is_terminal.
  destruct (event_is ed "batch_complete") eqn:Hb.
  - intros _.
    destruct (event_is ed "complete") eqn:Hc.
    { pose proof (@event_is_one _ _ _ Hb Hc). discriminate. }
    destruct (event_is ed "error") eqn:He; [|reflexivity].
    pose proof (@event_is_one _ _ _ Hb He). discriminate.
  - destruct (event_is ed "complete"); [discriminate|].
    destruct (event_is ed "error"); [|reflexivity].
    destruct (dict_get _ _ _); cbn [bind]; discriminate.
Qed.

(** One pass of the frame loop only adds handled events, and a terminal
    event can only be the last one it adds; when it adds none, no blank
    line is left in the buffer. *)
Lemma process_buffer_handled (buffer : str) (st : state) :
  forall rest st',
    process_buffer json_loads buffer st = Ok (rest, st') ->
    exists new,
      handled st' = handled st ++ new /\
      (forall pre ed post,
         new = pre ++ ed :: post -> is_terminal ed = true -> post = []) /\
      (Forall (fun ed => is_terminal ed = false) new ->
       split_blank rest = None).
Proof.
  funelim (process_buffer json_loads buffer st); intros rest0 st0.
  - intros [= <- <-]. exists []. rewrite app_nil_r.
    split; [reflexivity|]. split.
    + intros [|? ?] ? ? ?; discriminate.
    + intros _. assumption.
  - intros Hrec. destruct (H _ _ Hrec) as (new & Hh & Hlast & Hsp).
    pose proof (@dispatch_next _ _ _ Heq) as Hnt.
    apply dispatch_emitted in Heq as [_ Hh1].
    exists (parse_event json_loads event_text :: new). repeat split.
    + rewrite Hh, Hh1, <- app_assoc. reflexivity.
    + intros [|e pre] ed post E Hterm.
      * injection E as E1 _. rewrite <- E1 in Hterm. congruence.
      * injection E as _ E. apply (Hlast pre ed post E Hterm).
    + intros Hall. apply Hsp. inversion Hall; assumption.
  - intros [= <- <-].
    pose proof (@dispatch_break _ _ _ Heq) as Hterm.
    apply dispatch_emitted in Heq as [_ Hh1].
    exists [parse_event json_loads event_text]. repeat split.
    + exact Hh1.
    + intros [|e [|e' pre]] ed post E _; try discriminate.
      injection E as _ <-. reflexivity.
    + intros Hall. inversion Hall; congruence.
  - discriminate.
Qed.

(** X2.  When the stream arrives as one chunk, no event is handled after
    a terminal one. *)
Theorem one_chunk_stops_at_terminal (chunk : str) (ending : stream_end)
    (st : state) :
  stream_results_state json_loads (Streaming [chunk] ending) = Ok st ->
  forall pre ed post,
    handled st = pre ++ ed :: post -> is_terminal ed = true -> post = [].
Proof.
  unfold stream_results_state. cbn [read_chunks].
  assert (Hinit : forall pre ed post,
             handled initial = pre ++ ed :: post -> post = []).
  { intros [|? ?] ? ? ?; discriminate. }
  destruct chunk as [|c chunk].
  - cbn [bind snd]. destruct ending; intros [= <-] pre ed post E _;
      apply (Hinit pre ed post E).
  - cbn [app].
    destruct (process_buffer json_loads (c :: chunk) initial)
      as [[rest st1]|] eqn:Hp; cbn [bind fst snd read_chunks];
      [|discriminate].
    destruct (process_buffer_handled _ _ Hp) as (new & Hh & Hlast & _).
    cbn in Hh. subst new.
    destruct ending; intros [= <-]; cbn [handled]; exact Hlast.
Qed.

Lemma split_blank_prefix (a b : str) :
  split_blank (a ++ b) = None -> split_blank a = None.
Proof.
  intros H. destruct (split_blank a) as [[x r]|] eqn:Ha; [|reflexivity].
  rewrite (@split_blank_app a b x r Ha) in H. discriminate.
Qed.

Lemma read_chunks_unterminated (chunks : list str) :
  forall buffer st,
    split_blank (buffer ++ concat chunks) = None ->
    read_chunks json_loads chunks buffer st
      = Ok (buffer ++ concat chunks, st).
Proof.
  induction chunks as [|chunk chunks IH]; intros buffer st H;
    cbn [read_chunks concat] in *.
  - rewrite app_nil_r. reflexivity.
  - destruct chunk as [|c chunk]; [apply IH; exact H|].
    rewrite app_assoc in H.
    rewrite process_buffer_eq, (split_blank_prefix _ _ H). cbn [bind fst snd].
    rewrite IH by exact H. rewrite app_assoc. reflexivity.
Qed.

(** X3.  A frame is handled only once a blank line ends it: when the
    text received holds no blank line at all, nothing is handled, printed
    or returned, however it is cut into chunks. *)
Theorem unterminated_frame_is_lost (chunks : list str) :
  split_blank (concat chunks) = None ->
  stream_results_state json_loads (Streaming chunks EndOfStream)
    = Ok initial /\
  stream_results json_loads (Streaming chunks TransportFailure) = Ok [].
Proof.
  intros H. unfold stream_results, stream_results_state.
  rewrite read_chunks_unterminated by exact H. split; reflexivity.
Qed.

(** The frames of [buffer ++ concat chunks], handled at once without
    meeting a terminal event, are handled the same chunk by chunk. *)
Lemma read_chunks_concat (chunks : list str) :
  forall buffer st0 rest st,
    split_blank buffer = None ->
    process_buffer json_loads (buffer ++ concat chunks) st0
      = Ok (rest, st) ->
    Forall (fun ed => is_terminal ed = false) (handled st) ->
    exists rest',
      read_chunks json_loads chunks buffer st0 = Ok (rest', st).
Proof.
  induction chunks as [|chunk chunks IH]; intros buffer st0 rest st Hb Hrun Hnt;
    cbn [read_chunks concat] in *.
  - rewrite app_nil_r, process_buffer_eq, Hb in Hrun.
    injection Hrun as <- <-. eexists. reflexivity.
  - destruct chunk as [|c chunk]; [apply (IH _ _ _ _ Hb Hrun Hnt)|].
    rewrite app_assoc in Hrun.
    destruct (@process_buffer_app json_loads (buffer ++ c :: chunk) st0
                (concat chunks) rest st Hrun Hnt)
      as (r1 & st1 & H1 & H2).
    rewrite H1. cbn [bind fst snd].
    destruct (process_buffer_handled _ _ H1) as (new1 & Hh1 & _ & Hsp1).
    destruct (process_buffer_handled _ _ H2) as (new2 & Hh2 & _ & _).
    pose proof Hnt as Hnew. rewrite Hh2, Hh1 in Hnew.
    apply Forall_app in Hnew as [Hnew _].
    apply Forall_app in Hnew as [_ Hnew].
    apply (IH r1 st1 rest st (Hsp1 Hnew) H2 Hnt).
Qed.

(** X1.  Frame parsing depends only on the text received, not on how it
    is cut into chunks (any number of them, empty ones included), as long
    as the text, read as one chunk, holds no terminal event. *)
Theorem frames_independent_of_chunking (chunks : list str)
    (ending : stream_end) (st : state) :
  stream_results_state json_loads (Streaming [concat chunks] ending)
    = Ok st ->
  Forall (fun ed => is_terminal ed = false) (handled st) ->
  stream_results_state json_loads (Streaming chunks ending) = Ok st.
Proof.
  unfold stream_results_state. cbn [read_chunks].
  destruct (concat chunks) as [|c w] eqn:Hw.
  - cbn [bind snd]. intros H _.
    rewrite (read_chunks_unterminated chunks [] initial)
      by (rewrite Hw; reflexivity).
    exact H.
  - cbn [app].
    destruct (process_buffer json_loads (c :: w) initial)
      as [[rest st1]|] eqn:Hp; cbn [bind fst snd read_chunks];
      [|discriminate].
    intros Hst Hnt.
    assert (Hnt1 : Forall (fun ed => is_terminal ed = false) (handled st1)).
    { destruct ending; injection Hst as <-; exact Hnt. }
    destruct (read_chunks_concat chunks [] initial eq_refl
                (rest := rest) (st := st1)) as [rest' Hr].
    + rewrite Hw. exact Hp.
    + exact Hnt1.
    + rewrite Hr. cbn [bind snd]. exact Hst.
Qed.

Lemma dispatch_not_object (ed : event_data) (st : state) (v : json) :
  data ed = Some v ->
  (forall entries, v <> JObj entries) ->
  event_is ed "batch_complete" = true \/ event_is ed "error" = true ->
  dispatch ed st = Raise AttributeError.
Proof.
  intros Hd Hv Hev. unfold dispatch. rewrite Hd.
  assert (Hget : forall key default,
             dict_get v key default = Raise AttributeError).
  { intros key default. destruct v; try reflexivity.
    exfalso. eapply Hv. reflexivity. }
  destruct Hev as [Hb | He].
  - rewrite Hb, Hget. reflexivity.
  - destruct (event_is ed "batch_complete") eqn:Hb.
    { rewrite Hget. reflexivity. }
    destruct (event_is ed "complete") eqn:Hc.
    { pose proof (@event_is_one _ _ _ Hc He). discriminate. }
    rewrite He, Hget. reflexivity.
Qed.

(** X4.  A [batch_complete] or [error] frame whose payload decodes, but
    not to a dictionary, makes [stream_results] raise [AttributeError]:
    the exception is no [RequestException] and is not caught. *)
Theorem non_object_payload_raises (chunk event_text rest : str) (v : json)
    (chunks : list str) (ending : stream_end) :
  split_blank chunk = Some (event_text, rest) ->
  event_is (parse_event json_loads event_text) "batch_complete" = true \/
  event_is (parse_event json_loads event_text) "error" = true ->
  data (parse_event json_loads event_text) = Some v ->
  (forall entries, v <> JObj entries) ->
  stream_results json_loads (Streaming (chunk :: chunks) ending)
    = Raise AttributeError.
Proof.
  intros Hs Hev Hd Hv. unfold stream_results, stream_results_state.
  destruct chunk as [|c chunk]; [discriminate|].
  cbn [read_chunks app].
  rewrite process_buffer_eq, Hs.
  rewrite (dispatch_not_object _ initial Hd Hv Hev). reflexivity.
Qed.

End ChunkFacts.

(** Two [batch_complete] frames, cut into three chunks inside the frames,
    with an empty chunk in between. *)
Lemma frames_independent_of_chunking_witness :
  let chunks := [firstn 30 batch_frame; []; skipn 30 batch_frame;
                 firstn 9 batch_frame; skipn 9 batch_frame] in
  exists st,
    stream_results_state sample_loads (Streaming [concat chunks] EndOfStream)
      = Ok st /\
    Forall (fun ed => is_terminal ed = false) (handled st) /\
    stream_results_state sample_loads (Streaming chunks EndOfStream) = Ok st /\
    results st = [sample_result; sample_result].
Proof.
  intros chunks.
  assert (H : stream_results_state sample_loads
                (Streaming [concat chunks] EndOfStream)
              = Ok {| results := [sample_result; sample_result];
                      printed := [];
                      handled := [batch_event; batch_event] |})
    by (vm_compute; reflexivity).
  assert (Hnt : Forall (fun ed => is_terminal ed = false)
                  [batch_event; batch_event])
    by (repeat constructor).
  eexists. split; [exact H|]. split; [exact Hnt|]. split; [|reflexivity].
  apply (@frames_independent_of_chunking sample_loads chunks EndOfStream _
           H Hnt).
Defined.

(** A [complete] frame followed by a [batch_complete] frame, in one
    chunk. *)
Lemma one_chunk_stops_at_terminal_witness :
  exists st,
    stream_results_state sample_loads
      (Streaming [complete_frame ++ batch_frame] EndOfStream) = Ok st /\
    handled st = [complete_event] /\
    forall pre ed post,
      handled st = pre ++ ed :: post -> is_terminal ed = true -> post = [].
Proof.
  assert (H : stream_results_state sample_loads
                (Streaming [complete_frame ++ batch_frame] EndOfStream)
              = Ok {| results := []; printed := [JobCompleted];
                      handled := [complete_event] |})
    by (vm_compute; reflexivity).
  eexists. split; [exact H|]. split; [reflexivity|].
  apply (@one_chunk_stops_at_terminal sample_loads _ _ _ H).
Defined.

(** A frame that lacks its blank line, in two chunks. *)
Lemma unterminated_frame_is_lost_witness :
  let chunks := [lit "event: batch_complete" ++ [LF];
                 lit "data: " ++ results_text ++ [LF]] in
  split_blank (concat chunks) = None /\
  stream_results sample_loads (Streaming chunks TransportFailure) = Ok [].
Proof.
  intros chunks.
  assert (H : split_blank (concat chunks) = None) by (vm_compute; reflexivity).
  split; [exact H|].
  apply (@unterminated_frame_is_lost sample_loads chunks H).
Defined.

(** The frame [event: batch_complete\ndata: []\n\n]. *)
Lemma non_object_payload_raises_witness :
  let chunk := frame (lit "event: batch_complete") (lit "data: []") in
  split_blank chunk
    = Some (lit "event: batch_complete" ++ [LF] ++ lit "data: []", []) /\
  stream_results list_loads (Streaming [chunk] EndOfStream)
    = Raise AttributeError.
Proof.
  intros chunk.
  assert (H : split_blank chunk
              = Some (lit "event: batch_complete" ++ [LF] ++ lit "data: []",
                      []))
    by (vm_compute; reflexivity).
  split; [exact H|].
  apply (@non_object_payload_raises list_loads chunk _ _ (JArr []) []
           EndOfStream H).
  - left. vm_compute. reflexivity.
  - vm_compute. reflexivity.
  - discriminate.
Defined.

(** ** The order of texts and the scan of a folder *)

Lemma str_ltb_irrefl (a : str) : str_ltb a a = false.
Proof.
  induction a as [|x a IH]; [reflexivity|]. cbn.
  rewrite N.ltb_irrefl, N.eqb_refl, IH. reflexivity.
Qed.

Lemma str_ltb_asym (a : str) :
  forall b, str_ltb a b = true -> str_ltb b a = false.
Proof.
  induction a as [|x a IH]; intros [|y b]; cbn; try congruence.
  destruct (N.ltb_spec x y) as [Hxy|Hxy]; cbn.
  - intros _. destruct (N.ltb_spec y x); [lia|].
    destruct (N.eqb_spec y x); [lia | reflexivity].
  - destruct (N.eqb_spec x y) as [->|Hne]; [|discriminate]. cbn.
    intros H. rewrite N.ltb_irrefl, N.eqb_refl. cbn. apply IH. exact H.
Qed.

Lemma str_ltb_trans (a : str) :
  forall b c, str_ltb a b = true -> str_ltb b c = true -> str_ltb a c = true.
Proof.
  induction a as [|x a IH]; intros [|y b] [|z c]; cbn; try congruence.
  destruct (N.ltb_spec x y) as [Hxy|Hxy]; cbn.
  - intros _. destruct (N.ltb_spec y z) as [Hyz|Hyz]; cbn.
    + intros _. destruct (N.ltb_spec x z); [reflexivity | lia].
    + destruct (N.eqb_spec y z) as [->|]; [|discriminate]. intros _.
      destruct (N.ltb_spec x z); [reflexivity | lia].
  - destruct (N.eqb_spec x y) as [->|]; [|discriminate]. cbn. intros Hab.
    destruct (N.ltb_spec y z) as [Hyz|Hyz]; cbn; [reflexivity|].
    destruct (N.eqb_spec y z) as [->|]; [|discriminate]. cbn.
    apply IH. exact Hab.
Qed.

Lemma str_ltb_total (a : str) :
  forall b, str_ltb a b = false -> str_ltb b a = false -> a = b.
Proof.
  induction a as [|x a IH]; intros [|y b]; cbn; try congruence.
  destruct (N.ltb_spec x y) as [Hxy|Hxy]; cbn; [discriminate|].
  destruct (N.ltb_spec y x) as [Hyx|Hyx]; cbn; [discriminate|].
  assert (x = y) by lia. subst y. rewrite N.eqb_refl. cbn.
  intros H1 H2. f_equal. apply IH; assumption.
Qed.

Lemma str_le_trans (a b c : str) : str_le a b -> str_le b c -> str_le a c.
Proof.
  unfold str_le. intros Hab Hbc.
  destruct (str_ltb c a) eqn:Hca; [|reflexivity].
  destruct (str_ltb b c) eqn:Hbc'.
  - rewrite (str_ltb_trans _ _ _ Hbc' Hca) in Hab. discriminate.
  - assert (b = c) by (apply str_ltb_total; assumption). subst c.
    congruence.
Qed.

Lemma insert_by_name_perm (f : file) (fs : list file) :
  Permutation (insert_by_name f fs) (f :: fs).
Proof.
  induction fs as [|g fs IH]; cbn; [reflexivity|].
  destruct (str_ltb (name f) (name g)); [reflexivity|].
  rewrite IH. apply perm_swap.
Qed.

Lemma insert_by_name_sorted (f : file) (fs : list file) :
  Sorted name_le fs -> Sorted name_le (insert_by_name f fs).
Proof.
  induction 1 as [|g fs Hs IH Hhd]; cbn.
  - repeat constructor.
  - destruct (str_ltb (name f) (name g)) eqn:Hfg.
    + constructor; [constructor; assumption|].
      constructor. apply str_ltb_asym. exact Hfg.
    + constructor; [exact IH|].
      destruct Hhd as [|h fs' Hgh]; cbn.
      * constructor. exact Hfg.
      * destruct (str_ltb (name f) (name h)); constructor;
          [exact Hfg | exact Hgh].
Qed.

Lemma startswith_spec (s p : str) :
  startswith s p = true <-> exists r, s = p ++ r.
Proof.
  revert s. induction p as [|x p IH]; intros s; cbn.
  - split; [intros _; exists s; reflexivity | destruct s; reflexivity].
  - destruct s as [|y s]; cbn.
    + split; [discriminate | intros [r H]; discriminate].
    + rewrite andb_true_iff, N.eqb_eq, IH. split.
      * intros [-> [r ->]]. exists r. reflexivity.
      * intros [r [= -> ->]]. split; [reflexivity | exists r; reflexivity].
Qed.

Lemma endswith_spec (s p : str) :
  endswith s p = true <-> exists q, s = q ++ p.
Proof.
  unfold endswith. rewrite startswith_spec. split.
  - intros [r H]. exists (rev r).
    apply (f_equal (@rev _)) in H.
    rewrite rev_involutive, rev_app_distr, rev_involutive in H. exact H.
  - intros [q ->]. exists (rev q). apply rev_app_distr.
Qed.

Lemma get_nor_files_perm (entries : list file) :
  Permutation (get_nor_files entries)
    (filter (fun f => endswith (name f) NOR_txt) entries).
Proof.
  unfold get_nor_files.
  induction (filter _ entries) as [|f fs IH]; cbn; [reflexivity|].
  rewrite insert_by_name_perm, IH. reflexivity.
Qed.

Lemma get_nor_files_in (entries : list file) (f : file) :
  In f (get_nor_files entries) <->
  In f entries /\ exists prefix, name f = prefix ++ NOR_txt.
Proof.
  pose proof (get_nor_files_perm entries) as Hperm.
  rewrite <- endswith_spec. split.
  - intros Hin. apply (Permutation_in _ Hperm) in Hin.
    apply filter_In in Hin. exact Hin.
  - intros Hin. apply (Permutation_in _ (Permutation_sym Hperm)).
    apply filter_In. exact Hin.
Qed.

(** X5.  The scan of a folder returns the entries whose name ends in
    [_NOR.txt], all of them and nothing else, in the order of their
    names. *)
Theorem get_nor_files_sorted_scan (entries : list file) :
  Sorted name_le (get_nor_files entries) /\
  Permutation (get_nor_files entries)
    (filter (fun f => endswith (name f) NOR_txt) entries) /\
  (forall f,
     In f (get_nor_files entries) <->
     In f entries /\ exists prefix, name f = prefix ++ NOR_txt).
Proof.
  split; [|split].
  - unfold get_nor_files.
    induction (filter _ entries) as [|f fs IH]; cbn; [constructor|].
    apply insert_by_name_sorted. exact IH.
  - apply get_nor_files_perm.
  - apply get_nor_files_in.
Qed.

(** ** Loading the prompt table *)

Lemma has_column_false (label : str) (df : DataFrame) :
  has_column label df = false <-> ~ In label (columns df).
Proof.
  unfold has_column. split.
  - intros H Hin.
    assert (E : existsb (str_eqb label) (columns df) = true).
    { apply existsb_exists. exists label. split; [exact Hin|].
      apply str_eqb_refl. }
    congruence.
  - intros Hno. destruct (existsb _ _) eqn:E; [|reflexivity].
    apply existsb_exists in E as (c & Hin & Hc).
    apply str_eqb_eq in Hc. subst c. contradiction.
Qed.

Lemma canonical_no_alias (c : str) :
  canonical c <> lit "File ID" /\ canonical c <> lit "TEXTpost2".
Proof.
  unfold canonical.
  destruct (str_eqb c (lit "File ID")) eqn:H1.
  { split; discriminate. }
  destruct (str_eqb c (lit "TEXTpost2")) eqn:H2.
  { split; discriminate. }
  apply str_eqb_neq in H1, H2. split; assumption.
Qed.

(** X6.  Loading leaves no column under an old name, keeps the number of
    columns and every row, and loading what was loaded changes nothing;
    a missing file loads as the empty frame. *)
Theorem load_consignas_csv_normal_form (csv : DataFrame) :
  ~ In (lit "File ID") (columns (load_consignas_csv (Some csv))) /\
  ~ In (lit "TEXTpost2") (columns (load_consignas_csv (Some csv))) /\
  length (columns (load_consignas_csv (Some csv))) = length (columns csv) /\
  rows (load_consignas_csv (Some csv)) = rows csv /\
  load_consignas_csv (Some (load_consignas_csv (Some csv)))
    = load_consignas_csv (Some csv) /\
  empty (load_consignas_csv None) = true.
Proof.
  destruct (load_columns csv) as [Hcols Hrows].
  assert (H1 : ~ In (lit "File ID") (columns (load_consignas_csv (Some csv)))).
  { rewrite Hcols. intros Hin. apply in_map_iff in Hin as (c & Hc & _).
    apply (proj1 (canonical_no_alias c)). exact Hc. }
  assert (H2 : ~ In (lit "TEXTpost2")
                 (columns (load_consignas_csv (Some csv)))).
  { rewrite Hcols. intros Hin. apply in_map_iff in Hin as (c & Hc & _).
    apply (proj2 (canonical_no_alias c)). exact Hc. }
  repeat split; try assumption.
  - rewrite Hcols. apply length_map.
  - generalize dependent (load_consignas_csv (Some csv)). intros df _ _ H1 H2.
    apply has_column_false in H1, H2.
    unfold load_consignas_csv. rewrite H1, H2. reflexivity.
Qed.

(** ** Identifiers of scanned files *)

Section ScanFacts.

Variable unicode_decimal : codepoint -> option N.

Hypothesis decimal_ascii :
  forall c, (c < 128)%N ->
    unicode_decimal c =
      if ((48 <=? c) && (c <=? 57))%N then Some (c - 48)%N else None.

Lemma last_occurrence (c : codepoint) (a b r r' : str) :
  a ++ c :: r = b ++ c :: r' -> ~ In c r -> ~ In c r' -> a = b /\ r = r'.
Proof.
  revert b. induction a as [|x a IH]; intros [|y b] E Hr Hr'; cbn in E.
  - injection E as <-. split; reflexivity.
  - injection E as _ ->. exfalso. apply Hr. apply in_or_app.
    right. left. reflexivity.
  - injection E as _ <-. exfalso. apply Hr'. apply in_or_app.
    right. left. reflexivity.
  - injection E as <- E. destruct (IH b E Hr Hr') as [-> ->].
    split; reflexivity.
Qed.

(** C9.  Over the names [process_folder] hands to the extraction, those
    the scan of the folder returns: a name [<prefix>_<digits>_NOR<ext>]
    has the extension [.txt] and the extraction returns its digit group;
    on every other scanned name the extraction returns no identifier; and
    a file without identifier is left out of its batch.  On a name
    [<prefix>_<digits>_NOR.txt] the extraction returns the digit group
    whether the name is scanned or not. *)
Theorem extract_id_from_filename_exact :
  (forall prefix ds,
     ds <> [] -> all_digits unicode_decimal ds ->
     extract_id_from_filename unicode_decimal
       (prefix ++ [UNDERSCORE] ++ ds ++ NOR_txt) = Some ds) /\
  (forall entries f prefix ds ext,
     In f (get_nor_files entries) ->
     ds <> [] -> all_digits unicode_decimal ds -> is_extension ext ->
     name f = prefix ++ [UNDERSCORE] ++ ds ++ lit "_NOR" ++ ext ->
     ext = lit ".txt" /\
     extract_id_from_filename unicode_decimal (name f) = Some ds) /\
  (forall entries f,
     In f (get_nor_files entries) ->
     (forall prefix ds,
        ds <> [] -> all_digits unicode_decimal ds ->
        name f <> prefix ++ [UNDERSCORE] ++ ds ++ NOR_txt) ->
     extract_id_from_filename unicode_decimal (name f) = None) /\
  (forall consignas_df f before after,
     extract_id_from_filename unicode_decimal (name f) = None ->
     prepare_batch unicode_decimal consignas_df (before ++ f :: after)
       = prepare_batch unicode_decimal consignas_df (before ++ after)).
Proof.
  assert (Hform : forall prefix ds,
            ds <> [] -> all_digits unicode_decimal ds ->
            extract_id_from_filename unicode_decimal
              (prefix ++ [UNDERSCORE] ++ ds ++ NOR_txt) = Some ds).
  { intros prefix ds Hne Hds. unfold extract_id_from_filename.
    apply (re_search_form decimal_ascii); try assumption.
    left. reflexivity. }
  split; [exact Hform|]. split; [|split].
  - intros entries f prefix ds ext Hin Hne Hds (rest & -> & Hrest) E.
    apply get_nor_files_in in Hin as [_ [q Hq]].
    assert (Hext : rest = lit "txt").
    { rewrite Hq in E.
      change NOR_txt with (lit "_NOR" ++ DOT :: lit "txt") in E.
      rewrite !app_assoc in E.
      apply last_occurrence in E as [_ E]; [symmetry; exact E | | exact Hrest].
      vm_compute. intros [H | [H | [H | []]]]; discriminate. }
    subst rest. split; [reflexivity|]. rewrite E. apply Hform; assumption.
  - intros entries f Hin Hnot.
    apply get_nor_files_in in Hin as [_ [q Hq]].
    unfold extract_id_from_filename.
    destruct (re_search unicode_decimal (name f)) as [g|] eqn:Hs;
      [|reflexivity].
    exfalso.
    apply re_search_sound in Hs as (prefix & tail & E & Hne & Hg & Htail).
    apply (Hnot prefix g Hne Hg).
    rewrite E. rewrite Hq in E.
    replace (prefix ++ [UNDERSCORE] ++ g ++ tail)
      with ((prefix ++ [UNDERSCORE] ++ g) ++ tail) in E
      by (rewrite <- !app_assoc; reflexivity).
    assert (Hnor : tail_of_name NOR_txt) by (left; reflexivity).
    destruct (tails_agree _ _ Hnor Htail E) as [_ <-]. reflexivity.
  - intros. apply prepare_batch_skips. assumption.
Qed.

(** X7.  For a file the scan returns, the extraction yields an identifier
    exactly when the name is [<prefix>_<digits>_NOR.txt], and then the
    identifier is that digit group. *)
Theorem scanned_name_extraction (entries : list file) (f : file) (g : str) :
  In f (get_nor_files entries) ->
  extract_id_from_filename unicode_decimal (name f) = Some g <->
  g <> [] /\ all_digits unicode_decimal g /\
  exists prefix, name f = prefix ++ [UNDERSCORE] ++ g ++ NOR_txt.
Proof.
  intros Hin. apply get_nor_files_in in Hin as [_ [q Hq]].
  unfold extract_id_from_filename. split.
  - intros Hs.
    apply re_search_sound in Hs as (prefix & tail & E & Hne & Hg & Htail).
    split; [exact Hne|]. split; [exact Hg|]. exists prefix.
    rewrite E. rewrite Hq in E.
    replace (prefix ++ [UNDERSCORE] ++ g ++ tail)
      with ((prefix ++ [UNDERSCORE] ++ g) ++ tail) in E
      by (rewrite <- !app_assoc; reflexivity).
    assert (Hnor : tail_of_name NOR_txt) by (left; reflexivity).
    destruct (tails_agree _ _ Hnor Htail E) as [_ <-]. reflexivity.
  - intros (Hne & Hg & prefix & ->).
    apply (re_search_form decimal_ascii); try assumption.
    left. reflexivity.
Qed.

End ScanFacts.

(** The names ['POS1_11410001_NOR.txt'] and ['notes_NOR.txt'] of a
    scanned folder. *)
Lemma extract_id_from_filename_exact_witness :
  let entries := {| name := lit "notes_NOR.txt";
                    content := Some (lit "Notes") |} :: sample_files in
  (forall c, (c < 128)%N ->
     ascii_decimal c =
       if ((48 <=? c) && (c <=? 57))%N then Some (c - 48)%N else None) /\
  extract_id_from_filename ascii_decimal
    (lit "POS1" ++ [UNDERSCORE] ++ lit "11410001" ++ NOR_txt)
    = Some (lit "11410001") /\
  In {| name := lit "notes_NOR.txt"; content := Some (lit "Notes") |}
     (get_nor_files entries) /\
  extract_id_from_filename ascii_decimal (lit "notes_NOR.txt") = None /\
  prepare_batch ascii_decimal (load_consignas_csv (Some sample_table))
    (get_nor_files entries)
  = prepare_batch ascii_decimal (load_consignas_csv (Some sample_table))
      sample_files.
Proof.
  intros entries.
  destruct (@extract_id_from_filename_exact ascii_decimal
              ascii_decimal_ascii)
    as (Hform & _ & Hother & Hskip).
  assert (Hds : all_digits ascii_decimal (lit "11410001"))
    by (repeat constructor).
  assert (Hin : In {| name := lit "notes_NOR.txt";
                      content := Some (lit "Notes") |}
                   (get_nor_files entries))
    by (vm_compute; right; right; left; reflexivity).
  assert (Hnone : extract_id_from_filename ascii_decimal
                    (lit "notes_NOR.txt") = None).
  { apply (Hother entries _ Hin). intros prefix ds Hne Hd E.
    pose proof (Hform prefix ds Hne Hd) as H.
    cbn [name] in E. rewrite <- E in H. vm_compute in H. discriminate. }
  split; [exact ascii_decimal_ascii|].
  split; [apply (Hform (lit "POS1") (lit "11410001"));
          [discriminate | exact Hds]|].
  split; [exact Hin|]. split; [exact Hnone|].
  change (get_nor_files entries)
    with (sample_files
          ++ {| name := lit "notes_NOR.txt";
                content := Some (lit "Notes") |} :: []).
  rewrite (Hskip (load_consignas_csv (Some sample_table))
             {| name := lit "notes_NOR.txt"; content := Some (lit "Notes") |}
             sample_files [] Hnone).
  rewrite app_nil_r. reflexivity.
Defined.

(** Beyond the scan: the [$] of the pattern also matches just before a
    final line feed, so the extraction accepts a name
    [<prefix>_<digits>_NOR.txt] followed by one line feed.  No name the
    scan returns ends in a line feed. *)
Remark extract_id_from_filename_line_feed :
  extract_id_from_filename ascii_decimal
    (lit "POS1_11410001_NOR.txt" ++ [LF]) = Some (lit "11410001") /\
  forall entries f,
    In f (get_nor_files entries) ->
    name f <> lit "POS1_11410001_NOR.txt" ++ [LF].
Proof.
  split; [reflexivity|].
  intros entries f Hin E.
  apply get_nor_files_in in Hin as [_ [q Hq]].
  rewrite Hq in E. apply (f_equal (@rev _)) in E.
  rewrite rev_app_distr in E. vm_compute in E. discriminate.
Qed.

Lemma scanned_name_extraction_witness :
  let entries := [ {| name := lit "zz.txt"; content := None |} ]
                 ++ sample_files in
  In {| name := lit "POS1_11410001_NOR.txt"; content := Some (lit "Hello") |}
     (get_nor_files entries) /\
  extract_id_from_filename ascii_decimal (lit "POS1_11410001_NOR.txt")
    = Some (lit "11410001") /\
  exists prefix,
    lit "POS1_11410001_NOR.txt"
      = prefix ++ [UNDERSCORE] ++ lit "11410001" ++ NOR_txt.
Proof.
  intros entries.
  assert (Hin : In {| name := lit "POS1_11410001_NOR.txt";
                      content := Some (lit "Hello") |}
                   (get_nor_files entries))
    by (left; reflexivity).
  split; [exact Hin|]. split; [reflexivity|].
  destruct (proj1 (@scanned_name_extraction ascii_decimal
                     ascii_decimal_ascii entries _ (lit "11410001") Hin)
                  eq_refl) as (_ & _ & H).
  exact H.
Defined.

(** ** The items of a batch *)

Section PrepareFacts.

Variable unicode_decimal : codepoint -> option N.

(** How the batch loop treats its first file. *)
Lemma prepare_batch_cons (consignas_df : DataFrame) (f : file)
    (fs : list file) :
  prepare_batch unicode_decimal consignas_df (f :: fs) =
    if valid_file unicode_decimal f then
      match extract_id_from_filename unicode_decimal (name f) with
      | Some text_id =>
          consigna <- lookup_consigna consignas_df text_id ;;
          more <- prepare_batch unicode_decimal consignas_df fs ;;
          Ok ({| Item.id_alumno := text_id;
                 Item.curso := extract_curso_from_id unicode_decimal text_id;
                 Item.consigna := consigna;
                 Item.respuesta := read_text_file f |} :: fst more,
              {| Meta.id := text_id;
                 Meta.filename := name f;
                 Meta.consigna := consigna;
                 Meta.curso := extract_curso_from_id unicode_decimal text_id |}
              :: snd more)
      | None => prepare_batch unicode_decimal consignas_df fs
      end
    else prepare_batch unicode_decimal consignas_df fs.
Proof.
  cbn [prepare_batch]. unfold valid_file.
  destruct (extract_id_from_filename unicode_decimal (name f))
    as [[|c text_id]|]; try reflexivity.
  destruct (read_text_file f); reflexivity.
Qed.

(** X8.  The items of a batch are its valid files, in their order: the
    files whose name yields an identifier and whose stripped text is not
    empty.  Every item carries that text, and no item has an empty
    identifier or an empty text. *)
Theorem prepare_batch_keeps_valid_files (consignas_df : DataFrame)
    (batch_files : list file) (batch_items : list Item.t)
    (file_metadata : list Meta.t) :
  prepare_batch unicode_decimal consignas_df batch_files
    = Ok (batch_items, file_metadata) ->
  map Meta.filename file_metadata
    = map name (filter (valid_file unicode_decimal) batch_files) /\
  map Item.respuesta batch_items
    = map read_text_file (filter (valid_file unicode_decimal) batch_files) /\
  Forall (fun item => Item.id_alumno item <> [] /\ Item.respuesta item <> [])
         batch_items.
Proof.
  revert batch_items file_metadata.
  induction batch_files as [|f fs IH]; intros batch_items file_metadata.
  - intros [= <- <-]. repeat split. constructor.
  - rewrite prepare_batch_cons. cbn [filter].
    destruct (valid_file unicode_decimal f) eqn:Hv; [|apply IH].
    unfold valid_file in Hv.
    destruct (extract_id_from_filename unicode_decimal (name f))
      as [[|c text_id]|]; try discriminate.
    destruct (lookup_consigna consignas_df (c :: text_id));
      cbn [bind]; [|discriminate].
    destruct (prepare_batch unicode_decimal consignas_df fs)
      as [[items meta]|]; cbn [bind fst snd]; [|discriminate].
    intros [= <- <-]. destruct (IH items meta eq_refl) as (H1 & H2 & H3).
    cbn [map]. rewrite H1, H2. repeat split.
    constructor; [|exact H3]. cbn. split; [discriminate|].
    destruct (read_text_file f); [discriminate | discriminate].
Qed.

(** X9.  [file_metadata] mirrors [batch_items]: entry by entry they have
    the same identifier, grade and prompt; and every entry of the metadata
    is consistent with its file: the identifier is the one its name
    yields, the grade is derived from the identifier and the prompt is
    the one the table gives for it. *)
Theorem prepare_batch_metadata_mirrors_items (consignas_df : DataFrame)
    (batch_files : list file) (batch_items : list Item.t)
    (file_metadata : list Meta.t) :
  prepare_batch unicode_decimal consignas_df batch_files
    = Ok (batch_items, file_metadata) ->
  map Item.id_alumno batch_items = map Meta.id file_metadata /\
  map Item.curso batch_items = map Meta.curso file_metadata /\
  map Item.consigna batch_items = map Meta.consigna file_metadata /\
  Forall (fun m =>
            extract_id_from_filename unicode_decimal (Meta.filename m)
              = Some (Meta.id m) /\
            Meta.curso m = extract_curso_from_id unicode_decimal (Meta.id m) /\
            lookup_consigna consignas_df (Meta.id m) = Ok (Meta.consigna m))
         file_metadata.
Proof.
  revert batch_items file_metadata.
  induction batch_files as [|f fs IH]; intros batch_items file_metadata.
  - intros [= <- <-]. repeat split. constructor.
  - rewrite prepare_batch_cons.
    destruct (valid_file unicode_decimal f); [|apply IH].
    destruct (extract_id_from_filename unicode_decimal (name f))
      as [text_id|] eqn:Hid; [|apply IH].
    destruct (lookup_consigna consignas_df text_id) as [consigna|] eqn:Hc;
      cbn [bind]; [|discriminate].
    destruct (prepare_batch unicode_decimal consignas_df fs)
      as [[items meta]|]; cbn [bind fst snd]; [|discriminate].
    intros [= <- <-].
    destruct (IH items meta eq_refl) as (H1 & H2 & H3 & H4).
    cbn [map]. rewrite H1, H2, H3. repeat split.
    constructor; [|exact H4]. cbn. repeat split; assumption.
Qed.

(** The files behind the metadata of a batch. *)
Lemma prepare_batch_metadata_files (consignas_df : DataFrame)
    (batch_files : list file) :
  forall batch_items file_metadata,
    prepare_batch unicode_decimal consignas_df batch_files
      = Ok (batch_items, file_metadata) ->
    forall m, In m file_metadata ->
      exists f,
        In f batch_files /\ Meta.filename m = name f /\
        extract_id_from_filename unicode_decimal (name f)
          = Some (Meta.id m) /\
        Meta.curso m = extract_curso_from_id unicode_decimal (Meta.id m) /\
        lookup_consigna consignas_df (Meta.id m) = Ok (Meta.consigna m).
Proof.
  induction batch_files as [|f fs IH]; intros batch_items file_metadata.
  - intros [= <- <-] m [].
  - rewrite prepare_batch_cons.
    assert (Hrest : forall items meta,
               prepare_batch unicode_decimal consignas_df fs
                 = Ok (items, meta) ->
               forall m, In m meta ->
                 exists f0,
                   In f0 (f :: fs) /\ Meta.filename m = name f0 /\
                   extract_id_from_filename unicode_decimal (name f0)
                     = Some (Meta.id m) /\
                   Meta.curso m
                     = extract_curso_from_id unicode_decimal (Meta.id m) /\
                   lookup_consigna consignas_df (Meta.id m)
                     = Ok (Meta.consigna m)).
    { intros items meta Hp m Hm.
      destruct (IH items meta Hp m Hm) as (f0 & Hin & H).
      exists f0. split; [right; exact Hin | exact H]. }
    destruct (valid_file unicode_decimal f); [|apply Hrest].
    destruct (extract_id_from_filename unicode_decimal (name f))
      as [text_id|] eqn:Hid; [|apply Hrest].
    destruct (lookup_consigna consignas_df text_id) as [consigna|] eqn:Hc;
      cbn [bind]; [|discriminate].
    destruct (prepare_batch unicode_decimal consignas_df fs)
      as [[items meta]|] eqn:Hp; cbn [bind fst snd]; [|discriminate].
    intros [= <- <-] m [<- | Hm].
    + exists f. cbn. repeat split; try assumption. left. reflexivity.
    + apply (Hrest items meta eq_refl m Hm).
Qed.

End PrepareFacts.

(** The two files of the scenario, an entry that is no report, and a
    file without text. *)
Lemma prepare_batch_keeps_valid_files_witness :
  let batch_files :=
    [ {| name := lit "notes_NOR.txt"; content := Some (lit "x") |} ]
    ++ sample_files
    ++ [ {| name := lit "POS1_3_NOR.txt"; content := Some (lit "  ") |} ] in
  exists batch_items file_metadata,
    prepare_batch ascii_decimal (load_consignas_csv (Some sample_table))
      batch_files = Ok (batch_items, file_metadata) /\
    map Meta.filename file_metadata
      = [lit "POS1_11410001_NOR.txt"; lit "POS1_11510002_NOR.txt"] /\
    map Item.respuesta batch_items = [lit "Hello"; lit "World"].
Proof.
  intros batch_files.
  destruct (prepare_batch ascii_decimal
              (load_consignas_csv (Some sample_table)) batch_files)
    as [[batch_items file_metadata]|] eqn:Hp; [|vm_compute in Hp; discriminate].
  exists batch_items, file_metadata. split; [reflexivity|].
  destruct (@prepare_batch_keeps_valid_files ascii_decimal _ _ _ _ Hp)
    as (H1 & H2 & _).
  split; [exact H1 | exact H2].
Defined.

Lemma prepare_batch_metadata_mirrors_items_witness :
  exists batch_items file_metadata,
    prepare_batch ascii_decimal (load_consignas_csv (Some sample_table))
      sample_files = Ok (batch_items, file_metadata) /\
    map Item.id_alumno batch_items = map Meta.id file_metadata /\
    map Item.consigna batch_items = map Meta.consigna file_metadata /\
    map Meta.consigna file_metadata
      = [CStr (lit "Describe X"); CStr (lit "N/A")].
Proof.
  destruct (prepare_batch ascii_decimal
              (load_consignas_csv (Some sample_table)) sample_files)
    as [[batch_items file_metadata]|] eqn:Hp; [|vm_compute in Hp; discriminate].
  exists batch_items, file_metadata. split; [reflexivity|].
  destruct (@prepare_batch_metadata_mirrors_items ascii_decimal _ _ _ _ Hp)
    as (H1 & _ & H3 & _).
  split; [exact H1|]. split; [exact H3|].
  vm_compute in Hp. injection Hp as _ <-. reflexivity.
Defined.

(** ** Reading a file *)

Lemma lstrip_split (s : str) :
  exists before, blank before /\ s = before ++ lstrip s.
Proof.
  induction s as [|c s (before & Hb & Hs)]; cbn.
  - exists []. split; [constructor | reflexivity].
  - destruct (is_space c) eqn:Hc.
    + exists (c :: before). split; [constructor; assumption|].
      cbn. f_equal. exact Hs.
    + exists []. split; [constructor | reflexivity].
Qed.

Lemma lstrip_head (s : str) (c : codepoint) (rest : str) :
  lstrip s = c :: rest -> is_space c = false.
Proof.
  induction s as [|d s IH]; cbn; [discriminate|].
  destruct (is_space d) eqn:Hd; [exact IH|].
  intros [= <- _]. exact Hd.
Qed.

Lemma lstrip_blank (s : str) : blank s -> lstrip s = [].
Proof.
  induction 1 as [|c s Hc _ IH]; cbn; [reflexivity|].
  rewrite Hc. exact IH.
Qed.

Lemma lstrip_keeps_end (s : str) (c : codepoint) :
  is_space c = false -> lstrip (s ++ [c]) = lstrip s ++ [c].
Proof.
  intros Hc. induction s as [|d s IH]; cbn.
  - rewrite Hc. reflexivity.
  - destruct (is_space d); [exact IH | reflexivity].
Qed.

Lemma blank_rev (s : str) : blank s -> blank (rev s).
Proof. unfold blank. apply Forall_rev. Qed.

Lemma strip_split (s : str) :
  exists before after,
    blank before /\ blank after /\ s = before ++ strip s ++ after.
Proof.
  unfold strip, rstrip.
  destruct (lstrip_split s) as (before & Hb & Hs).
  destruct (lstrip_split (rev (lstrip s))) as (after & Ha & Hr).
  exists before, (rev after). split; [exact Hb|].
  split; [apply blank_rev; exact Ha|].
  rewrite <- rev_app_distr, <- Hr, rev_involutive. exact Hs.
Qed.

Lemma strip_ends (s : str) :
  (forall c rest, strip s = c :: rest -> is_space c = false) /\
  (forall init c, strip s = init ++ [c] -> is_space c = false).
Proof.
  unfold strip, rstrip. split.
  - intros c rest H.
    destruct (lstrip s) as [|d t] eqn:Hl; [discriminate|].
    pose proof (@lstrip_head _ _ _ Hl) as Hd.
    cbn [rev] in H. rewrite (@lstrip_keeps_end (rev t) d Hd) in H.
    rewrite rev_app_distr in H. cbn in H. injection H as <- _. exact Hd.
  - intros init c H.
    apply (f_equal (@rev _)) in H.
    rewrite rev_involutive, rev_app_distr in H. cbn in H.
    apply (@lstrip_head _ _ _ H).
Qed.

Lemma strip_empty (s : str) : strip s = [] <-> blank s.
Proof.
  split.
  - intros H. destruct (strip_split s) as (before & after & Hb & Ha & Hs).
    rewrite H in Hs. cbn in Hs. subst s. apply Forall_app. split; assumption.
  - intros H. unfold strip, rstrip. rewrite (@lstrip_blank s H). reflexivity.
Qed.

(** X10.  [read_text_file] returns the text of the file without the white
    space at its two ends, and nothing else is removed.  It returns the
    empty text exactly when the file cannot be read or holds white space
    only, and such a file is never a valid file of a batch. *)
Theorem read_text_file_stripped (f : file) :
  (read_text_file f = [] <->
   content f = None \/ exists text, content f = Some text /\ blank text) /\
  (forall c rest, read_text_file f = c :: rest -> is_space c = false) /\
  (forall init c, read_text_file f = init ++ [c] -> is_space c = false) /\
  (forall text,
     content f = Some text ->
     exists before after,
       blank before /\ blank after /\
       text = before ++ read_text_file f ++ after) /\
  (forall unicode_decimal,
     read_text_file f = [] -> valid_file unicode_decimal f = false).
Proof.
  unfold valid_file, read_text_file. destruct (content f) as [text|].
  - repeat split.
    + intros H. right. exists text. split; [reflexivity|].
      apply strip_empty. exact H.
    + intros [H | (t & [= <-] & H)]; [discriminate|].
      apply strip_empty. exact H.
    + apply strip_ends.
    + apply strip_ends.
    + intros t [= <-]. apply strip_split.
    + intros ud ->. destruct (extract_id_from_filename ud (name f))
        as [[|? ?]|]; reflexivity.
  - repeat split.
    + intros _. left. reflexivity.
    + discriminate.
    + intros [|? ?] ? ?; discriminate.
    + discriminate.
    + intros ud _. destruct (extract_id_from_filename ud (name f))
        as [[|? ?]|]; reflexivity.
Qed.

(** ** The rows of a folder *)

Lemma match_results_rows (folder_name : str) (file_metadata : list Meta.t)
    (results : list json) :
  forall rows,
    match_results folder_name file_metadata results = Ok rows ->
    forall row, In row rows ->
      Row.folder row = folder_name /\
      exists m,
        In m file_metadata /\
        Row.id row = JStr (Meta.id m) /\
        Row.filename row = Meta.filename m /\
        Row.curso row = Meta.curso m /\
        Row.consigna row = Meta.consigna m.
Proof.
  induction results as [|result results IH]; intros rows; cbn [match_results].
  - intros [= <-] row [].
  - destruct (dict_get result (lit "id_alumno") JNull) as [id_alumno|];
      cbn [bind]; [|discriminate].
    destruct (find_metadata file_metadata id_alumno) as [m|] eqn:Hfind;
      [|apply IH].
    destruct (dict_get result (lit "nota") JNull); cbn [bind];
      [|discriminate].
    destruct (dict_get result (lit "feedback") JNull); cbn [bind];
      [|discriminate].
    destruct (match_results folder_name file_metadata results)
      as [more|]; cbn [bind]; [|discriminate].
    intros [= <-] row [<- | Hin]; [|apply (IH more eq_refl row Hin)].
    apply find_metadata_first in Hfind as (before & after & -> & -> & _).
    cbn. split; [reflexivity|]. exists m. repeat split.
    apply in_or_app. right. left. reflexivity.
Qed.

Lemma slice_incl (A : Type) (l : list A) (i j : Z) (x : A) :
  In x (slice l i j) -> In x l.
Proof.
  unfold slice. intros H.
  rewrite <- (firstn_skipn (Z.to_nat i) l). apply in_or_app. right.
  rewrite <- (firstn_skipn (Z.to_nat (j - i)) (skipn (Z.to_nat i) l)).
  apply in_or_app. left. exact H.
Qed.

Lemma batches_incl (A : Type) (l : list A) (batch_size : Z)
    (all_batches : list (list A)) (batch : list A) (x : A) :
  batches l batch_size = Ok all_batches ->
  In batch all_batches -> In x batch -> In x l.
Proof.
  unfold batches. destruct (range0 _ _) as [starts|]; cbn [bind];
    [|discriminate].
  intros [= <-] Hb Hx. apply in_map_iff in Hb as (i & <- & _).
  apply slice_incl in Hx. exact Hx.
Qed.

Section FolderFacts.

Variable unicode_decimal : codepoint -> option N.
Variable json_loads : str -> option json.

Lemma process_batches_rows (folder_name : str) (consignas_df : DataFrame)
    (service : nat -> list Item.t -> reply) (all_batches : list (list file)) :
  forall k rows,
    process_batches unicode_decimal json_loads folder_name consignas_df
      service k all_batches = Ok rows ->
    forall row, In row rows ->
      Row.folder row = folder_name /\
      exists batch f text_id,
        In batch all_batches /\ In f batch /\
        Row.filename row = name f /\
        extract_id_from_filename unicode_decimal (name f) = Some text_id /\
        Row.id row = JStr text_id /\
        Row.curso row = extract_curso_from_id unicode_decimal text_id /\
        lookup_consigna consignas_df text_id = Ok (Row.consigna row).
Proof.
  induction all_batches as [|batch_files rest IH]; intros k rows;
    cbn [process_batches].
  - intros [= <-] row [].
  - assert (Hrest : forall k' more,
               process_batches unicode_decimal json_loads folder_name
                 consignas_df service k' rest = Ok more ->
               forall row, In row more ->
                 Row.folder row = folder_name /\
                 exists batch f text_id,
                   In batch (batch_files :: rest) /\ In f batch /\
                   Row.filename row = name f /\
                   extract_id_from_filename unicode_decimal (name f)
                     = Some text_id /\
                   Row.id row = JStr text_id /\
                   Row.curso row
                     = extract_curso_from_id unicode_decimal text_id /\
                   lookup_consigna consignas_df text_id
                     = Ok (Row.consigna row)).
    { intros k' more Hp row Hin.
      destruct (IH k' more Hp row Hin) as (Hf & batch & f & id & Hb & H).
      split; [exact Hf|]. exists batch, f, id.
      split; [right; exact Hb | exact H]. }
    destruct (prepare_batch unicode_decimal consignas_df batch_files)
      as [[batch_items file_metadata]|] eqn:Hprep; cbn [bind fst snd];
      [|discriminate].
    destruct batch_items as [|item batch_items]; [apply Hrest|].
    destruct (evaluate_texts json_loads (service k (item :: batch_items)))
      as [results|]; cbn [bind]; [|discriminate].
    destruct (match_results folder_name file_metadata results)
      as [new|] eqn:Hnew; cbn [bind]; [|discriminate].
    destruct (process_batches unicode_decimal json_loads folder_name
                consignas_df service (S k) rest)
      as [more|] eqn:Hmore; cbn [bind]; [|discriminate].
    intros [= <-] row Hin. apply in_app_or in Hin as [Hin | Hin];
      [|apply (Hrest (S k) more Hmore row Hin)].
    destruct (match_results_rows _ _ _ Hnew row Hin)
      as (Hf & m & Hm & Hid & Hname & Hcurso & Hcons).
    split; [exact Hf|].
    destruct (prepare_batch_metadata_files _ _ _ Hprep m Hm)
      as (f & Hfin & Hfn & Hext & Hc & Hl).
    exists batch_files, f, (Meta.id m).
    split; [left; reflexivity|]. split; [exact Hfin|].
    rewrite Hname, Hid, Hcurso, Hcons. repeat split; assumption.
Qed.

(** X11.  Every row [process_folder] returns belongs to a scanned file of
    the folder: it bears the name of the file and the folder name, its
    identifier is the one the name yields, its grade is derived from that
    identifier and its prompt is the one the table gives for it.  No row
    comes from the stream alone. *)
Theorem process_folder_rows_closed (folder_name : str)
    (csv : option DataFrame) (entries : list file) (batch_size : Z)
    (service : nat -> list Item.t -> reply) (rows : list Row.t) :
  process_folder unicode_decimal json_loads folder_name csv entries
    batch_size service = Ok rows ->
  forall row, In row rows ->
    Row.folder row = folder_name /\
    exists f text_id,
      In f (get_nor_files entries) /\
      Row.filename row = name f /\
      extract_id_from_filename unicode_decimal (name f) = Some text_id /\
      Row.id row = JStr text_id /\
      Row.curso row = extract_curso_from_id unicode_decimal text_id /\
      lookup_consigna (load_consignas_csv csv) text_id
        = Ok (Row.consigna row).
Proof.
  unfold process_folder.
  destruct (empty (load_consignas_csv csv)); [intros [= <-] row []|].
  destruct (get_nor_files entries) as [|f0 fs] eqn:Hscan;
    [intros [= <-] row []|].
  destruct (batches (f0 :: fs) batch_size) as [all_batches|] eqn:Hb;
    cbn [bind]; [|discriminate].
  intros Hp row Hin.
  destruct (process_batches_rows _ _ _ _ _ Hp row Hin)
    as (Hf & batch & f & text_id & Hbatch & Hfin & H).
  split; [exact Hf|]. exists f, text_id. split; [|exact H].
  eapply batches_incl; eassumption.
Qed.

End FolderFacts.

Lemma process_folder_rows_closed_witness :
  exists rows,
    process_folder ascii_decimal sample_loads (lit "POS1")
      (Some sample_table) sample_files 10 scenario_service = Ok rows /\
    length rows = 2%nat /\
    forall row, In row rows ->
      Row.folder row = lit "POS1" /\
      exists f text_id,
        In f (get_nor_files sample_files) /\
        Row.filename row = name f /\
        extract_id_from_filename ascii_decimal (name f) = Some text_id /\
        Row.id row = JStr text_id /\
        Row.curso row = extract_curso_from_id ascii_decimal text_id /\
        lookup_consigna (load_consignas_csv (Some sample_table)) text_id
          = Ok (Row.consigna row).
Proof.
  destruct (process_folder ascii_decimal sample_loads (lit "POS1")
              (Some sample_table) sample_files 10 scenario_service)
    as [rows|] eqn:Hp; [|vm_compute in Hp; discriminate].
  exists rows. split; [reflexivity|]. split.
  - vm_compute in Hp. injection Hp as <-. reflexivity.
  - apply (@process_folder_rows_closed ascii_decimal sample_loads _ _ _ _ _
             _ Hp).
Defined.

(** ** Degenerate runs of a folder *)

Section FolderEdges.

Variable unicode_decimal : codepoint -> option N.
Variable json_loads : str -> option json.

(** X12.  Without prompts (no table, or a table without rows or columns)
    or without scanned files, [process_folder] returns no row and submits
    nothing, whatever the batch size.  Otherwise a batch size of 0 makes
    it raise [ValueError] (from [range]), and a negative batch size makes
    it return no row without submitting anything. *)
Theorem process_folder_degenerate (folder_name : str)
    (csv : option DataFrame) (entries : list file) (batch_size : Z)
    (service : nat -> list Item.t -> reply) :
  (empty (load_consignas_csv csv) = true \/ get_nor_files entries = [] ->
   process_folder unicode_decimal json_loads folder_name csv entries
     batch_size service = Ok []) /\
  (empty (load_consignas_csv csv) = false ->
   get_nor_files entries <> [] ->
   (batch_size = 0%Z ->
    process_folder unicode_decimal json_loads folder_name csv entries
      batch_size service = Raise ValueError) /\
   ((batch_size < 0)%Z ->
    process_folder unicode_decimal json_loads folder_name csv entries
      batch_size service = Ok [])).
Proof.
  unfold process_folder. split.
  - intros [-> | ->]; [reflexivity|].
    destruct (empty (load_consignas_csv csv)); reflexivity.
  - intros -> Hfiles.
    destruct (get_nor_files entries) as [|f fs]; [contradiction|].
    split.
    + intros ->. reflexivity.
    + intros Hneg. unfold batches, range0.
      replace (batch_size =? 0)%Z with false
        by (symmetry; apply Z.eqb_neq; lia).
      rewrite range_from_eq.
      replace (0 <? batch_size)%Z with false
        by (symmetry; apply Z.ltb_ge; lia).
      reflexivity.
Qed.

Lemma process_batches_refused (folder_name : str) (consignas_df : DataFrame)
    (i j : nat) (service : nat -> list Item.t -> reply)
    (all_batches : list (list file)) :
  column_index (lit "ID") (columns consignas_df) = Some i ->
  column_index (lit "Consigna") (columns consignas_df) = Some j ->
  (forall k items, job_info (service k items) = None) ->
  forall k,
    process_batches unicode_decimal json_loads folder_name consignas_df
      service k all_batches = Ok [].
Proof.
  intros Hi Hj Hfail.
  induction all_batches as [|batch_files rest IH]; intros k;
    cbn [process_batches]; [reflexivity|].
  destruct (prepare_batch_total unicode_decimal consignas_df batch_files
              Hi Hj) as [[batch_items file_metadata] Hp].
  rewrite Hp. cbn [bind fst snd].
  destruct batch_items as [|item batch_items]; [apply IH|].
  unfold evaluate_texts, submit_evaluation_job. rewrite Hfail.
  cbn [bind match_results]. rewrite IH. reflexivity.
Qed.

End FolderEdges.

(** The scenario with a batch size of 0 and of -1. *)
Lemma process_folder_degenerate_witness :
  empty (load_consignas_csv (Some sample_table)) = false /\
  get_nor_files sample_files <> [] /\
  process_folder ascii_decimal sample_loads (lit "POS1")
    (Some sample_table) sample_files 0 scenario_service
    = Raise ValueError /\
  process_folder ascii_decimal sample_loads (lit "POS1")
    (Some sample_table) sample_files (-1) scenario_service = Ok [].
Proof.
  assert (H1 : empty (load_consignas_csv (Some sample_table)) = false)
    by reflexivity.
  assert (H2 : get_nor_files sample_files <> []) by discriminate.
  split; [exact H1|]. split; [exact H2|].
  split.
  - apply (proj2 (process_folder_degenerate ascii_decimal sample_loads
                    (lit "POS1") (Some sample_table) sample_files 0
                    scenario_service) H1 H2).
    reflexivity.
  - apply (proj2 (process_folder_degenerate ascii_decimal sample_loads
                    (lit "POS1") (Some sample_table) sample_files (-1)
                    scenario_service) H1 H2).
    lia.
Defined.

(** ** The reports that are combined *)

Lemma str_ltb_app_l (p a b : str) : str_ltb (p ++ a) (p ++ b) = str_ltb a b.
Proof.
  induction p as [|x p IH]; [reflexivity|]. cbn.
  rewrite N.ltb_irrefl, N.eqb_refl. exact IH.
Qed.

Lemma str_ltb_app_r (s a : str) :
  forall b, length a = length b ->
    str_ltb (a ++ s) (b ++ s) = str_ltb a b.
Proof.
  induction a as [|x a IH]; intros [|y b]; cbn; try discriminate.
  - intros _. apply str_ltb_irrefl.
  - intros [= H]. rewrite (IH b H). reflexivity.
Qed.

Lemma sorted_last_greatest (l : list file) (latest : file) :
  Sorted name_le (l ++ [latest]) ->
  forall g, In g (l ++ [latest]) -> name_le g latest.
Proof.
  intros Hs. apply Sorted_StronglySorted in Hs.
  2:{ intros a b c. apply str_le_trans. }
  induction l as [|a l IH]; cbn in *.
  - intros g [<- | []]. apply str_ltb_irrefl.
  - inversion Hs as [|? ? Hs' Hall]; subst.
    intros g [<- | Hin]; [|apply (IH Hs' g Hin)].
    rewrite Forall_forall in Hall. apply Hall.
    apply in_or_app. right. left. reflexivity.
Qed.

Section CombineFacts.

Variable glob_match : str -> str -> bool.

Lemma csv_files_perm (folder_name : str) (entries : list file) :
  Permutation (csv_files glob_match folder_name entries)
    (filter (fun f => glob_match (report_pattern folder_name) (name f))
            entries).
Proof.
  unfold csv_files.
  induction (filter _ entries) as [|f fs IH]; cbn; [reflexivity|].
  rewrite insert_by_name_perm, IH. reflexivity.
Qed.

Lemma csv_files_sorted (folder_name : str) (entries : list file) :
  Sorted name_le (csv_files glob_match folder_name entries).
Proof.
  unfold csv_files.
  induction (filter _ entries) as [|f fs IH]; cbn; [constructor|].
  apply insert_by_name_sorted. exact IH.
Qed.

Lemma latest_csv_none (folder_name : str) (entries : list file) :
  (forall f, In f entries ->
     glob_match (report_pattern folder_name) (name f) = false) ->
  latest_csv glob_match folder_name entries = None.
Proof.
  intros Hnone. unfold latest_csv, csv_files.
  replace (filter _ entries) with (@nil file); [reflexivity|].
  symmetry. induction entries as [|f fs IH]; [reflexivity|]. cbn [filter].
  rewrite (Hnone f (or_introl eq_refl)). apply IH.
  intros g Hg. apply Hnone. right. exact Hg.
Qed.

(** X14.  For a folder, [combine_results] reads a report exactly when
    some entry of the folder matches [results_<folder>_*.csv]; the report
    it reads is such an entry, and no matching entry has a greater
    name. *)
Theorem latest_csv_has_greatest_name (folder_name : str)
    (entries : list file) :
  (latest_csv glob_match folder_name entries = None <->
   forall f, In f entries ->
     glob_match (report_pattern folder_name) (name f) = false) /\
  (forall latest,
     latest_csv glob_match folder_name entries = Some latest ->
     In latest entries /\
     glob_match (report_pattern folder_name) (name latest) = true /\
     forall g, In g entries ->
       glob_match (report_pattern folder_name) (name g) = true ->
       str_le (name g) (name latest)).
Proof.
  pose proof (csv_files_perm folder_name entries) as Hperm.
  pose proof (csv_files_sorted folder_name entries) as Hsorted.
  unfold latest_csv.
  destruct (rev (csv_files glob_match folder_name entries))
    as [|latest r] eqn:Hrev.
  - apply (f_equal (@rev _)) in Hrev. rewrite rev_involutive in Hrev.
    cbn in Hrev. rewrite Hrev in Hperm.
    apply Permutation_nil in Hperm. split; [|discriminate].
    split; [|reflexivity]. intros _ f Hin.
    destruct (glob_match (report_pattern folder_name) (name f)) eqn:Hm;
      [|reflexivity].
    assert (Hf : In f (filter
                         (fun f => glob_match (report_pattern folder_name)
                                     (name f)) entries))
      by (apply filter_In; split; assumption).
    rewrite Hperm in Hf. contradiction.
  - apply (f_equal (@rev _)) in Hrev. rewrite rev_involutive in Hrev.
    cbn [rev] in Hrev. rewrite Hrev in Hperm, Hsorted.
    assert (Hlatest : In latest (rev r ++ [latest]))
      by (apply in_or_app; right; left; reflexivity).
    apply (Permutation_in _ Hperm) in Hlatest.
    apply filter_In in Hlatest as [Hin Hm].
    split.
    + split; [discriminate|]. intros H. rewrite (H latest Hin) in Hm.
      discriminate.
    + intros l [= <-]. split; [exact Hin|]. split; [exact Hm|].
      intros g Hg Hgm.
      apply (@sorted_last_greatest (rev r) latest Hsorted).
      apply (Permutation_in _ (Permutation_sym Hperm)).
      apply filter_In. split; assumption.
Qed.

(** X15.  Among the reports of a folder named as [main] names them, with
    time stamps of one length, the report [combine_results] reads bears
    the greatest time stamp. *)
Theorem latest_csv_has_greatest_timestamp (folder_name : str)
    (entries : list file) (latest : file) (timestamp : str) :
  latest_csv glob_match folder_name entries = Some latest ->
  name latest = output_filename folder_name timestamp ->
  forall g timestamp',
    In g entries ->
    glob_match (report_pattern folder_name) (name g) = true ->
    name g = output_filename folder_name timestamp' ->
    length timestamp' = length timestamp ->
    str_le timestamp' timestamp.
Proof.
  intros Hlatest Hname g ts' Hg Hgm Hgname Hlen.
  pose proof (csv_files_perm folder_name entries) as Hperm.
  pose proof (csv_files_sorted folder_name entries) as Hsorted.
  unfold latest_csv in Hlatest.
  destruct (rev (csv_files glob_match folder_name entries))
    as [|l r] eqn:Hrev; [discriminate|].
  injection Hlatest as ->.
  apply (f_equal (@rev _)) in Hrev. rewrite rev_involutive in Hrev.
  cbn [rev] in Hrev. rewrite Hrev in Hperm, Hsorted.
  assert (Hle : name_le g latest).
  { apply (@sorted_last_greatest (rev r) latest Hsorted).
    apply (Permutation_in _ (Permutation_sym Hperm)).
    apply filter_In. split; assumption. }
  unfold name_le, str_le in *. rewrite Hname, Hgname in Hle.
  unfold output_filename in Hle.
  rewrite !app_assoc in Hle.
  rewrite str_ltb_app_r in Hle by (rewrite !length_app; lia).
  rewrite <- !app_assoc in Hle.
  rewrite !str_ltb_app_l in Hle. exact Hle.
Qed.

(** X16.  [combine_results] reads one report per listed folder that has
    one, in the order of the list, and only the latest one: the frames it
    collects are, one for one and in this order, those of the latest
    reports of the folders; it raises exactly when one of these reports
    does not parse; and what any other file would parse to has no
    effect. *)
Theorem combine_results_reads_latest
    (read_csv : file -> option DataFrame) (folders : list str)
    (dir : str -> list file) :
  (forall all_results,
     combine_results glob_match read_csv folders dir = Some all_results ->
     Forall2 (fun f df => read_csv f = Some df)
       (flat_map (fun folder_name =>
                    match latest_csv glob_match folder_name
                            (dir folder_name) with
                    | Some f => [f]
                    | None => []
                    end)
                 folders)
       all_results /\
     (length all_results <= length folders)%nat /\
     forall df,
       In df all_results <->
       exists folder_name f,
         In folder_name folders /\
         latest_csv glob_match folder_name (dir folder_name) = Some f /\
         read_csv f = Some df) /\
  (combine_results glob_match read_csv folders dir = None <->
   exists folder_name f,
     In folder_name folders /\
     latest_csv glob_match folder_name (dir folder_name) = Some f /\
     read_csv f = None) /\
  (forall read_csv' : file -> option DataFrame,
     (forall folder_name f,
        In folder_name folders ->
        latest_csv glob_match folder_name (dir folder_name) = Some f ->
        read_csv' f = read_csv f) ->
     combine_results glob_match read_csv' folders dir
       = combine_results glob_match read_csv folders dir).
Proof.
  split; [|split].
  - induction folders as [|folder_name rest IH];
      cbn [combine_results flat_map]; intros all_results Hall.
    + injection Hall as <-. split; [constructor|]. split; [cbn; lia|].
      intros df. split; [contradiction | intros (x & f & [] & _)].
    + destruct (latest_csv glob_match folder_name (dir folder_name))
        as [latest|] eqn:Hl.
      * destruct (read_csv latest) as [df0|] eqn:Hr; [|discriminate].
        destruct (combine_results glob_match read_csv rest dir)
          as [rs|]; [|discriminate].
        injection Hall as <-.
        destruct (IH rs eq_refl) as (Hord & Hlen & Hin).
        split; [cbn [app]; constructor; assumption|].
        split; [cbn; lia|]. intros df. cbn [In]. rewrite Hin. split.
        -- intros [<- | (x & f & Hx & Hf & Hd)].
           ++ exists folder_name, latest. split; [left; reflexivity|].
              split; assumption.
           ++ exists x, f. split; [right; exact Hx|]. split; assumption.
        -- intros (x & f & [<- | Hx] & Hf & Hd).
           ++ left. congruence.
           ++ right. exists x, f. split; [exact Hx|]. split; assumption.
      * destruct (IH all_results Hall) as (Hord & Hlen & Hin).
        split; [exact Hord|].
        split; [cbn; lia|]. intros df. rewrite Hin. split.
        -- intros (x & f & Hx & Hf & Hd). exists x, f.
           split; [right; exact Hx|]. split; assumption.
        -- intros (x & f & [<- | Hx] & Hf & Hd); [congruence|].
           exists x, f. split; [exact Hx|]. split; assumption.
  - induction folders as [|folder_name rest IH]; cbn [combine_results].
    + split; [discriminate | intros (x & f & [] & _)].
    + destruct (latest_csv glob_match folder_name (dir folder_name))
        as [latest|] eqn:Hl.
      * destruct (read_csv latest) as [df0|] eqn:Hr.
        -- destruct (combine_results glob_match read_csv rest dir)
             as [rs|].
           ++ split; [discriminate|].
              intros (x & f & [<- | Hx] & Hf & Hd); [congruence|].
              assert (Hex : exists folder_name f,
                         In folder_name rest /\
                         latest_csv glob_match folder_name (dir folder_name)
                           = Some f /\
                         read_csv f = None)
                by (exists x, f; split; [exact Hx|]; split; assumption).
              apply IH in Hex. discriminate.
           ++ split; [|reflexivity]. intros _.
              destruct (proj1 IH eq_refl) as (x & f & Hx & Hf & Hd).
              exists x, f. split; [right; exact Hx|]. split; assumption.
        -- split; [|reflexivity]. intros _. exists folder_name, latest.
           split; [left; reflexivity|]. split; assumption.
      * rewrite IH. split.
        -- intros (x & f & Hx & Hf & Hd). exists x, f.
           split; [right; exact Hx|]. split; assumption.
        -- intros (x & f & [<- | Hx] & Hf & Hd); [congruence|].
           exists x, f. split; [exact Hx|]. split; assumption.
  - intros read_csv' Hagree.
    induction folders as [|folder_name rest IH]; cbn [combine_results];
      [reflexivity|].
    assert (Hrest : combine_results glob_match read_csv' rest dir
                    = combine_results glob_match read_csv rest dir).
    { apply IH. intros x f Hx Hf. apply (Hagree x f); [right|];
        assumption. }
    rewrite Hrest.
    destruct (latest_csv glob_match folder_name (dir folder_name))
      as [latest|] eqn:Hl; [|reflexivity].
    rewrite (Hagree folder_name latest (or_introl eq_refl) Hl).
    reflexivity.
Qed.

End CombineFacts.

Lemma latest_csv_has_greatest_timestamp_witness :
  latest_csv sample_glob (lit "POS1") sample_reports
    = Some {| name := output_filename (lit "POS1") (lit "20240102_090000");
              content := Some (lit "later") |} /\
  str_le (lit "20240101_120000") (lit "20240102_090000").
Proof.
  assert (H : latest_csv sample_glob (lit "POS1") sample_reports
              = Some {| name := output_filename (lit "POS1")
                                  (lit "20240102_090000");
                        content := Some (lit "later") |})
    by (vm_compute; reflexivity).
  split; [exact H|].
  apply (@latest_csv_has_greatest_timestamp sample_glob (lit "POS1")
           sample_reports _ (lit "20240102_090000") H eq_refl
           {| name := output_filename (lit "POS1") (lit "20240101_120000");
              content := Some (lit "earlier") |}
           (lit "20240101_120000")).
  - right. right. left. reflexivity.
  - vm_compute. reflexivity.
  - reflexivity.
  - reflexivity.
Defined.

(** ** A prompt table without the column ['ID'] *)

Section MissingColumn.

Variable unicode_decimal : codepoint -> option N.
Variable json_loads : str -> option json.

Lemma prepare_batch_without_id (consignas_df : DataFrame)
    (batch_files : list file) :
  column_index (lit "ID") (columns consignas_df) = None ->
  prepare_batch unicode_decimal consignas_df batch_files =
    if existsb (valid_file unicode_decimal) batch_files
    then Raise (KeyError (lit "ID"))
    else Ok ([], []).
Proof.
  intros Hid. induction batch_files as [|f fs IH]; [reflexivity|].
  rewrite prepare_batch_cons. cbn [existsb].
  destruct (valid_file unicode_decimal f) eqn:Hv; cbn [orb]; [|exact IH].
  unfold valid_file in Hv.
  destruct (extract_id_from_filename unicode_decimal (name f))
    as [text_id|]; [|discriminate].
  unfold lookup_consigna, rows_with_id. rewrite Hid. reflexivity.
Qed.

Lemma process_batches_without_id (folder_name : str)
    (consignas_df : DataFrame) (service : nat -> list Item.t -> reply)
    (all_batches : list (list file)) :
  column_index (lit "ID") (columns consignas_df) = None ->
  forall k,
    process_batches unicode_decimal json_loads folder_name consignas_df
      service k all_batches =
    if existsb (valid_file unicode_decimal) (concat all_batches)
    then Raise (KeyError (lit "ID"))
    else Ok [].
Proof.
  intros Hid. induction all_batches as [|batch rest IH]; intros k;
    [reflexivity|].
  cbn [process_batches concat]. rewrite existsb_app.
  rewrite prepare_batch_without_id by exact Hid.
  destruct (existsb (valid_file unicode_decimal) batch); [reflexivity|].
  cbn [bind fst orb]. apply IH.
Qed.

Lemma batches_concat (A : Type) (l : list A) (batch_size : Z) :
  (1 <= batch_size)%Z ->
  exists all_batches,
    batches l batch_size = Ok all_batches /\ concat all_batches = l.
Proof.
  intros Hb. unfold batches, range0.
  replace (batch_size =? 0)%Z with false by (symmetry; apply Z.eqb_neq; lia).
  cbn [bind]. eexists. split; [reflexivity|].
  rewrite (@concat_from A l batch_size Hb (length l) 0%Z) by lia.
  reflexivity.
Qed.

(** X18.  When the loaded table has no column ['ID'] (and has rows), a
    folder with at least one valid scanned file raises [KeyError] for
    ['ID'] before anything is submitted; without a valid file it returns
    no row. *)
Theorem missing_id_column_aborts_folder (folder_name : str)
    (csv : option DataFrame) (entries : list file) (batch_size : Z)
    (service : nat -> list Item.t -> reply) :
  empty (load_consignas_csv csv) = false ->
  column_index (lit "ID") (columns (load_consignas_csv csv)) = None ->
  (1 <= batch_size)%Z ->
  process_folder unicode_decimal json_loads folder_name csv entries
    batch_size service =
  if existsb (valid_file unicode_decimal) (get_nor_files entries)
  then Raise (KeyError (lit "ID"))
  else Ok [].
Proof.
  intros Hne Hid Hb. unfold process_folder. rewrite Hne.
  destruct (get_nor_files entries) as [|f fs] eqn:Hscan; [reflexivity|].
  destruct (batches_concat (f :: fs) Hb) as (all_batches & -> & Hc).
  cbn [bind]. rewrite process_batches_without_id by exact Hid.
  rewrite Hc. reflexivity.
Qed.

End MissingColumn.

Lemma missing_id_column_aborts_folder_witness :
  empty (load_consignas_csv (Some table_without_id)) = false /\
  column_index (lit "ID")
    (columns (load_consignas_csv (Some table_without_id))) = None /\
  process_folder ascii_decimal sample_loads (lit "POS1")
    (Some table_without_id) sample_files 10 scenario_service
    = Raise (KeyError (lit "ID")).
Proof.
  split; [reflexivity|]. split; [reflexivity|].
  apply (@missing_id_column_aborts_folder ascii_decimal sample_loads
           (lit "POS1") (Some table_without_id) sample_files 10
           scenario_service).
  - reflexivity.
  - reflexivity.
  - lia.
Defined.

Lemma latest_csv_has_greatest_name_witness :
  latest_csv sample_glob (lit "POS1") sample_reports
    = Some {| name := output_filename (lit "POS1") (lit "20240102_090000");
              content := Some (lit "later") |} /\
  str_le (output_filename (lit "POS1") (lit "20240101_120000"))
         (output_filename (lit "POS1") (lit "20240102_090000")).
Proof.
  assert (H : latest_csv sample_glob (lit "POS1") sample_reports
              = Some {| name := output_filename (lit "POS1")
                                  (lit "20240102_090000");
                        content := Some (lit "later") |})
    by (vm_compute; reflexivity).
  split; [exact H|].
  destruct (@latest_csv_has_greatest_name sample_glob (lit "POS1")
              sample_reports) as [_ Hsome].
  destruct (Hsome _ H) as (_ & _ & Hmax).
  apply (Hmax {| name := output_filename (lit "POS1")
                           (lit "20240101_120000");
                 content := Some (lit "earlier") |}).
  - right. right. left. reflexivity.
  - vm_compute. reflexivity.
Defined.

(** Three folders, the first without report: the frames of the other two
    come in the order of the list. *)
Lemma combine_results_reads_latest_witness :
  let folders := [lit "POS3"; lit "POS2"; lit "POS1"] in
  combine_results sample_glob sample_read_csv folders sample_dir
  = Some [{| columns := [lit "nota"]; rows := [[CStr (lit "second")]] |};
          {| columns := [lit "nota"]; rows := [[CStr (lit "later")]] |}] /\
  Forall2 (fun f df => sample_read_csv f = Some df)
    [{| name := output_filename (lit "POS2") (lit "20240103_080000");
        content := Some (lit "second") |};
     {| name := output_filename (lit "POS1") (lit "20240102_090000");
        content := Some (lit "later") |}]
    [{| columns := [lit "nota"]; rows := [[CStr (lit "second")]] |};
     {| columns := [lit "nota"]; rows := [[CStr (lit "later")]] |}] /\
  combine_results sample_glob (fun _ => None) folders sample_dir = None.
Proof.
  intros folders.
  assert (H : combine_results sample_glob sample_read_csv folders sample_dir
              = Some [{| columns := [lit "nota"];
                         rows := [[CStr (lit "second")]] |};
                      {| columns := [lit "nota"];
                         rows := [[CStr (lit "later")]] |}])
    by (vm_compute; reflexivity).
  split; [exact H|]. split.
  - destruct (@combine_results_reads_latest sample_glob sample_read_csv
                folders sample_dir) as (Hsome & _ & _).
    destruct (Hsome _ H) as (Hord & _ & _).
    vm_compute in Hord. vm_compute. exact Hord.
  - destruct (@combine_results_reads_latest sample_glob (fun _ => None)
                folders sample_dir) as (_ & Hnone & _).
    apply Hnone.
    exists (lit "POS1"),
      {| name := output_filename (lit "POS1") (lit "20240102_090000");
         content := Some (lit "later") |}.
    split; [right; right; left; reflexivity|].
    split; [vm_compute; reflexivity | reflexivity].
Defined.

(** ** The batches of a folder, one after the other *)

Lemma batches_nil (A : Type) (batch_size : Z) (all_batches : list (list A)) :
  batches (@nil A) batch_size = Ok all_batches -> all_batches = [].
Proof.
  unfold batches, range0. destruct (batch_size =? 0)%Z; [discriminate|].
  cbn [bind length]. rewrite range_from_eq.
  change (Z.of_nat 0) with 0%Z. rewrite Z.ltb_irrefl, andb_false_r.
  intros [= <-]. reflexivity.
Qed.

Section FolderRun.

Variable unicode_decimal : codepoint -> option N.
Variable json_loads : str -> option json.

Lemma process_batches_app (folder_name : str) (consignas_df : DataFrame)
    (service : nat -> list Item.t -> reply)
    (before rest : list (list file)) :
  forall k,
    process_batches unicode_decimal json_loads folder_name consignas_df
      service k (before ++ rest) =
    (earlier <- process_batches unicode_decimal json_loads folder_name
                  consignas_df service k before ;;
     later <- process_batches unicode_decimal json_loads folder_name
                consignas_df service
                (k + jobs unicode_decimal consignas_df before) rest ;;
     Ok (earlier ++ later)).
Proof.
  induction before as [|batch_files before IH]; intros k.
  - cbn [app process_batches bind jobs filter length].
    rewrite Nat.add_0_r.
    destruct (process_batches unicode_decimal json_loads folder_name
                consignas_df service k rest); reflexivity.
  - cbn [app process_batches]. unfold jobs. cbn [filter].
    destruct (prepare_batch unicode_decimal consignas_df batch_files)
      as [[batch_items file_metadata]|e]; cbn [bind fst snd];
      [|reflexivity].
    destruct batch_items as [|item batch_items]; [apply IH|].
    cbn [length]. rewrite Nat.add_succ_r. rewrite (IH (S k)).
    cbn [Nat.add]. fold (jobs unicode_decimal consignas_df before).
    destruct (evaluate_texts json_loads
                (service k (item :: batch_items)));
      cbn [bind]; [|reflexivity].
    destruct (match_results folder_name file_metadata a);
      cbn [bind]; [|reflexivity].
    destruct (process_batches unicode_decimal json_loads folder_name
                consignas_df service (S k) before);
      cbn [bind]; [|reflexivity].
    destruct (process_batches unicode_decimal json_loads folder_name
                consignas_df service
                (S (k + jobs unicode_decimal consignas_df before)) rest);
      cbn [bind]; [|reflexivity].
    rewrite app_assoc. reflexivity.
Qed.

Lemma process_folder_at_batch (folder_name : str) (csv : option DataFrame)
    (entries : list file) (batch_size : Z)
    (service : nat -> list Item.t -> reply)
    (before after : list (list file)) (batch_files : list file) :
  empty (load_consignas_csv csv) = false ->
  batches (get_nor_files entries) batch_size
    = Ok (before ++ batch_files :: after) ->
  process_folder unicode_decimal json_loads folder_name csv entries
    batch_size service =
  (earlier <- process_batches unicode_decimal json_loads folder_name
                (load_consignas_csv csv) service 0 before ;;
   later <- process_batches unicode_decimal json_loads folder_name
              (load_consignas_csv csv) service
              (jobs unicode_decimal (load_consignas_csv csv) before)
              (batch_files :: after) ;;
   Ok (earlier ++ later)).
Proof.
  intros Hne Hbs. unfold process_folder. rewrite Hne.
  destruct (get_nor_files entries) as [|g gs].
  - apply batches_nil in Hbs. destruct before; discriminate.
  - rewrite Hbs. cbn [bind]. rewrite process_batches_app. reflexivity.
Qed.

(** C7.  When the loaded prompt table is not empty and has its columns
    ['ID'] and ['Consigna'], a scanned file with an identifier and a
    non-empty text whose identifier no row of the table carries is an
    item of its batch, with the prompt ["N/A"], and the list holding it
    is the one handed to the service once the batches before it are
    done. *)
Theorem missing_prompt_keeps_item (csv : option DataFrame) (i j : nat)
    (entries : list file) (batch_size : Z) (f : file) (text_id : str) :
  empty (load_consignas_csv csv) = false ->
  column_index (lit "ID") (columns (load_consignas_csv csv)) = Some i ->
  column_index (lit "Consigna") (columns (load_consignas_csv csv))
    = Some j ->
  (1 <= batch_size)%Z ->
  In f (get_nor_files entries) ->
  extract_id_from_filename unicode_decimal (name f) = Some text_id ->
  read_text_file f <> [] ->
  Forall (fun row => astype_str (nth i row NaN) <> text_id)
         (rows (load_consignas_csv csv)) ->
  exists before batch_files after batch_items file_metadata,
    batches (get_nor_files entries) batch_size
      = Ok (before ++ batch_files :: after) /\
    In f batch_files /\
    prepare_batch unicode_decimal (load_consignas_csv csv) batch_files
      = Ok (batch_items, file_metadata) /\
    In {| Item.id_alumno := text_id;
          Item.curso := extract_curso_from_id unicode_decimal text_id;
          Item.consigna := CStr (lit "N/A");
          Item.respuesta := read_text_file f |} batch_items /\
    forall folder_name service,
      process_folder unicode_decimal json_loads folder_name csv entries
        batch_size service =
      (earlier <- process_batches unicode_decimal json_loads folder_name
                    (load_consignas_csv csv) service 0 before ;;
       results <- evaluate_texts json_loads
                    (service
                       (jobs unicode_decimal (load_consignas_csv csv)
                          before)
                       batch_items) ;;
       new <- match_results folder_name file_metadata results ;;
       later <- process_batches unicode_decimal json_loads folder_name
                  (load_consignas_csv csv) service
                  (S (jobs unicode_decimal (load_consignas_csv csv)
                        before))
                  after ;;
       Ok (earlier ++ new ++ later)).
Proof.
  intros Hne Hi Hj Hb Hin Hid Htext Hrows.
  destruct (batches_concat (get_nor_files entries) Hb)
    as (all_batches & Hbs & Hc).
  pose proof Hin as Hin'. rewrite <- Hc in Hin'.
  apply in_concat in Hin' as (batch_files & Hbin & Hfin).
  apply in_split in Hbin as (before & after & ->).
  destruct (prepare_batch_total unicode_decimal
              (load_consignas_csv csv) batch_files Hi Hj)
    as [[batch_items file_metadata] Hp].
  assert (Hitem : In {| Item.id_alumno := text_id;
                        Item.curso :=
                          extract_curso_from_id unicode_decimal text_id;
                        Item.consigna := CStr (lit "N/A");
                        Item.respuesta := read_text_file f |} batch_items)
    by (eapply prepare_batch_missing_prompt; eassumption).
  exists before, batch_files, after, batch_items, file_metadata.
  split; [exact Hbs|]. split; [exact Hfin|]. split; [exact Hp|].
  split; [exact Hitem|].
  intros folder_name service.
  rewrite (@process_folder_at_batch folder_name csv entries batch_size
             service before after batch_files Hne Hbs).
  cbn [process_batches]. rewrite Hp. cbn [bind fst snd].
  destruct batch_items as [|item batch_items]; [contradiction|].
  destruct (process_batches unicode_decimal json_loads folder_name
              (load_consignas_csv csv) service 0 before);
    cbn [bind]; [|reflexivity].
  destruct (evaluate_texts json_loads _); cbn [bind]; [|reflexivity].
  destruct (match_results folder_name file_metadata _);
    cbn [bind]; [|reflexivity].
  destruct (process_batches unicode_decimal json_loads folder_name
              (load_consignas_csv csv) service _ after);
    cbn [bind]; reflexivity.
Qed.

(** X13.  A refused job skips its batch and nothing more: the rows of
    the batches before it are kept, the batches after it are processed
    with the jobs that follow, and nothing is raised on its account.
    When the table has its columns ['ID'] and ['Consigna'] and the
    service refuses every job, [process_folder] raises nothing and
    returns no row. *)
Theorem refused_jobs_give_no_rows (folder_name : str) (csv : option DataFrame)
    (entries : list file) (batch_size : Z)
    (service : nat -> list Item.t -> reply) :
  (forall before batch_files after batch_items file_metadata,
     empty (load_consignas_csv csv) = false ->
     batches (get_nor_files entries) batch_size
       = Ok (before ++ batch_files :: after) ->
     prepare_batch unicode_decimal (load_consignas_csv csv) batch_files
       = Ok (batch_items, file_metadata) ->
     batch_items <> [] ->
     job_info
       (service (jobs unicode_decimal (load_consignas_csv csv) before)
          batch_items) = None ->
     process_folder unicode_decimal json_loads folder_name csv entries
       batch_size service =
     (earlier <- process_batches unicode_decimal json_loads folder_name
                   (load_consignas_csv csv) service 0 before ;;
      later <- process_batches unicode_decimal json_loads folder_name
                 (load_consignas_csv csv) service
                 (S (jobs unicode_decimal (load_consignas_csv csv)
                       before))
                 after ;;
      Ok (earlier ++ later))) /\
  (forall i j,
     column_index (lit "ID") (columns (load_consignas_csv csv)) = Some i ->
     column_index (lit "Consigna") (columns (load_consignas_csv csv))
       = Some j ->
     (forall k items, job_info (service k items) = None) ->
     batch_size <> 0%Z ->
     process_folder unicode_decimal json_loads folder_name csv entries
       batch_size service = Ok []).
Proof.
  split.
  - intros before batch_files after batch_items file_metadata
      Hne Hbs Hp Hitems Hrefused.
    rewrite (@process_folder_at_batch folder_name csv entries batch_size
               service before after batch_files Hne Hbs).
    cbn [process_batches]. rewrite Hp. cbn [bind fst snd].
    destruct batch_items as [|item batch_items]; [contradiction|].
    unfold evaluate_texts, submit_evaluation_job. rewrite Hrefused.
    cbn [bind match_results].
    destruct (process_batches unicode_decimal json_loads folder_name
                (load_consignas_csv csv) service 0 before);
      cbn [bind]; [|reflexivity].
    destruct (process_batches unicode_decimal json_loads folder_name
                (load_consignas_csv csv) service _ after);
      cbn [bind app]; reflexivity.
  - intros i j Hi Hj Hfail Hb. unfold process_folder.
    destruct (empty (load_consignas_csv csv)); [reflexivity|].
    destruct (get_nor_files entries) as [|f fs]; [reflexivity|].
    unfold batches, range0.
    replace (batch_size =? 0)%Z with false
      by (symmetry; apply Z.eqb_neq; lia).
    cbn [bind]. eapply process_batches_refused; eassumption.
Qed.

End FolderRun.

(** The second file of the scenario has no row in the prompt table. *)
Lemma missing_prompt_keeps_item_witness :
  empty (load_consignas_csv (Some sample_table)) = false /\
  column_index (lit "ID")
    (columns (load_consignas_csv (Some sample_table))) = Some 0%nat /\
  column_index (lit "Consigna")
    (columns (load_consignas_csv (Some sample_table))) = Some 2%nat /\
  exists batch_items file_metadata,
    prepare_batch ascii_decimal (load_consignas_csv (Some sample_table))
      sample_files = Ok (batch_items, file_metadata) /\
    In {| Item.id_alumno := lit "11510002";
          Item.curso := lit "5" ++ [232%N] ++ lit " ESO";
          Item.consigna := CStr (lit "N/A");
          Item.respuesta := lit "World" |} batch_items /\
    forall folder_name service,
      process_folder ascii_decimal sample_loads folder_name
        (Some sample_table) sample_files 10 service =
      (results <- evaluate_texts sample_loads (service 0%nat batch_items) ;;
       new <- match_results folder_name file_metadata results ;;
       Ok (new ++ [])).
Proof.
  split; [reflexivity|]. split; [reflexivity|]. split; [reflexivity|].
  destruct (@missing_prompt_keeps_item ascii_decimal sample_loads
              (Some sample_table) 0%nat 2%nat sample_files 10%Z
              {| name := lit "POS1_11510002_NOR.txt";
                 content := Some (lit "World") |}
              (lit "11510002"))
    as (before & batch_files & after & batch_items & file_metadata
        & Hbs & Hin & Hp & Hitem & Hrun).
  - reflexivity.
  - reflexivity.
  - reflexivity.
  - lia.
  - right. left. reflexivity.
  - reflexivity.
  - discriminate.
  - repeat constructor. discriminate.
  - vm_compute in Hbs.
    destruct before as [|b0 before].
    + injection Hbs as <- <-.
      exists batch_items, file_metadata.
      split; [exact Hp|]. split; [exact Hitem|].
      intros folder_name service. rewrite Hrun.
      cbn [process_batches bind jobs filter length].
      destruct (evaluate_texts sample_loads (service 0%nat batch_items));
        cbn [bind]; [|reflexivity].
      destruct (match_results folder_name file_metadata a);
        cbn [bind app]; reflexivity.
    + injection Hbs as _ Hbs. destruct before; discriminate.
Defined.

(** C7 as stated fails: with a prompt table that has its header and no
    row, the files of the scenario have an identifier and a text, and no
    row carries their identifier; yet [process_folder] returns at once,
    whatever the service would answer: no item is built and nothing is
    submitted.  Nor is anything submitted when the table lacks the column
    ['ID'], or lacks the column ['Consigna'] while another file of the
    batch has a row: the lookup raises [KeyError]. *)
Lemma missing_prompt_counterexample :
  extract_id_from_filename ascii_decimal (lit "POS1_11510002_NOR.txt")
    = Some (lit "11510002") /\
  read_text_file {| name := lit "POS1_11510002_NOR.txt";
                    content := Some (lit "World") |} = lit "World" /\
  In {| name := lit "POS1_11510002_NOR.txt"; content := Some (lit "World") |}
     (get_nor_files sample_files) /\
  rows (load_consignas_csv (Some header_only_table)) = [] /\
  Forall (fun row => astype_str (nth 0 row NaN) <> lit "11510002")
         (rows (load_consignas_csv (Some header_only_table))) /\
  (forall service,
     process_folder ascii_decimal sample_loads (lit "POS1")
       (Some header_only_table) sample_files 10 service = Ok []) /\
  (forall service,
     process_folder ascii_decimal sample_loads (lit "POS1")
       (Some table_without_id) sample_files 10 service
     = Raise (KeyError (lit "ID"))) /\
  (forall service,
     process_folder ascii_decimal sample_loads (lit "POS1")
       (Some table_without_consigna) sample_files 10 service
     = Raise (KeyError (lit "Consigna"))).
Proof.
  split; [reflexivity|]. split; [reflexivity|].
  split; [right; left; reflexivity|]. split; [reflexivity|].
  split; [constructor|].
  split; [|split]; intros service; vm_compute; reflexivity.
Qed.

(** The scenario in batches of one file, against a service that refuses
    the first job: the row of the second file is still returned. *)
Lemma refused_jobs_give_no_rows_witness :
  process_folder ascii_decimal sample_loads (lit "POS1")
    (Some sample_table) sample_files 1 refusing_first
  = Ok [ {| Row.folder := lit "POS1";
            Row.id := JStr (lit "11510002");
            Row.filename := lit "POS1_11510002_NOR.txt";
            Row.curso := lit "5" ++ [232%N] ++ lit " ESO";
            Row.consigna := CStr (lit "N/A");
            Row.nota := JInt 5;
            Row.feedback := JStr (lit "ok") |} ] /\
  process_folder ascii_decimal sample_loads (lit "POS1")
    (Some sample_table) sample_files 1
    (fun k items => {| job_info := None; stream := RequestFailed |})
  = Ok [].
Proof.
  split.
  - destruct (@refused_jobs_give_no_rows ascii_decimal sample_loads
                (lit "POS1") (Some sample_table) sample_files 1%Z
                refusing_first) as [Hone _].
    rewrite (Hone []
               [{| name := lit "POS1_11410001_NOR.txt";
                   content := Some (lit "Hello") |}]
               [[{| name := lit "POS1_11510002_NOR.txt";
                    content := Some (lit "World") |}]]
               [{| Item.id_alumno := lit "11410001";
                   Item.curso := lit "4t ESO";
                   Item.consigna := CStr (lit "Describe X");
                   Item.respuesta := lit "Hello" |}]
               [{| Meta.id := lit "11410001";
                   Meta.filename := lit "POS1_11410001_NOR.txt";
                   Meta.consigna := CStr (lit "Describe X");
                   Meta.curso := lit "4t ESO" |}]).
    + vm_compute. reflexivity.
    + reflexivity.
    + vm_compute. reflexivity.
    + vm_compute. reflexivity.
    + discriminate.
    + reflexivity.
  - destruct (@refused_jobs_give_no_rows ascii_decimal sample_loads
                (lit "POS1") (Some sample_table) sample_files 1%Z
                (fun k items =>
                   {| job_info := None; stream := RequestFailed |}))
      as [_ Hall].
    apply (Hall 0%nat 2%nat); [reflexivity | reflexivity | | discriminate].
    intros k items. reflexivity.
Defined.
